(** * Queue wait-time estimator: a shallow embedding of [queue_wait_time.py]

    The Python module has two classes.  [QueueSimulator] produces a stream of
    service-completion events; [WaitTimeEstimator] turns windows of completion
    timestamps into a service rate, a trend, a wait estimate with a confidence
    label, and an anomaly flag.

    Modelling choices, all read off the source:
    - a Python [float] is an IEEE-754 binary64 number, i.e. Rocq's primitive
      [float]; decimal literals denote the nearest binary64 value in both
      languages;
    - a [datetime] is a count of microseconds (its resolution) as a [Z],
      from 0001-01-01 00:00:00 on; the generator is modelled as the loop it
      is, with a clock that is not bounded, and a second time with the
      exceptions its one fallible line can raise
      ([generate_synthetic_data_checked]);
    - [self] is an explicit record threaded through each method;
    - [np.mean] and [np.std] belong to NumPy, not to this program: the
      estimator is parameterised by them, and a reference implementation
      (plain left-to-right binary64 reductions) is supplied for running the
      model on concrete inputs; NumPy adds in another order from 8 elements
      on, so the values of the reference are NumPy's on short lists only;
    - [timedelta(minutes=x)] belongs to the standard library: the generator is
      parameterised by the conversion of a float number of minutes to
      microseconds, again with a reference implementation;
    - the pseudo-random draws of the generator are an explicit input. *)

From Stdlib Require Import String.
From Stdlib Require Import ZArith List Bool Lia Floats Uint63.
Import ListNotations.

Set Warnings "-inexact-float".

Local Open Scope Z_scope.

(* ================================================================== *)
(** * Part I: the program *)
(* ================================================================== *)

(** ** Python list slices used by the source *)

(** [l[-n:]]: the last [n] elements, or all of [l] when it is shorter. *)
Definition slice_last {A} (n : nat) (l : list A) : list A :=
  skipn (length l - n) l.

(** [l[:-n]]: everything before the last [n] elements (empty when [l] has at
    most [n] elements). *)
Definition slice_but_last {A} (n : nat) (l : list A) : list A :=
  firstn (length l - n) l.

(** ** Time *)

(** An instant, in microseconds. *)
Definition datetime := Z.

Definition us_per_second : Z := 1000000.
Definition us_per_day : Z := 86400 * us_per_second.

(** The instants a [datetime] holds: from 0001-01-01 00:00:00, instant 0, to
    the last microsecond of 9999-12-31, the day of ordinal 3652059. *)
Definition datetime_end : Z := 3652059 * us_per_day.
Definition valid_datetime (t : datetime) : bool :=
  (0 <=? t) && (t <? datetime_end).

(** [timedelta.seconds]: the seconds field of the normalised difference
    (days, seconds, microseconds), always in [0, 86400). *)
Definition td_seconds (delta : Z) : Z :=
  (delta mod us_per_day) / us_per_second.

(** An integer as a float (exact below 2^53). *)
Definition float_of_Z (z : Z) : float := PrimFloat.of_uint63 (Uint63.of_Z z).

(** [(t1 - t0).seconds / 60]. *)
Definition interval_minutes (t0 t1 : datetime) : float :=
  (float_of_Z (td_seconds (t1 - t0)) / 60)%float.

(** ** NumPy reductions, reference implementation *)

Module NumpyRef.

Definition fsum (l : list float) : float :=
  fold_left PrimFloat.add l 0%float.

Definition mean (l : list float) : float :=
  (fsum l / float_of_Z (Z.of_nat (length l)))%float.

Definition std (l : list float) : float :=
  let m := mean l in
  PrimFloat.sqrt (mean (map (fun x => ((x - m) * (x - m))%float) l)).

End NumpyRef.

(** ** The estimator *)

Record WaitTimeEstimator := mkEstimator {
  window_size : Z;
  service_rates : list float;
  predictions : list (float * string);
  confidence_scores : list float
}.

(** [WaitTimeEstimator.__init__]. *)
Definition new_estimator (window_size : Z) : WaitTimeEstimator :=
  mkEstimator window_size [] [] [].

Definition set_service_rates (self : WaitTimeEstimator) (rs : list float) :=
  mkEstimator (window_size self) rs (predictions self) (confidence_scores self).

Definition set_predictions (self : WaitTimeEstimator)
    (ps : list (float * string)) :=
  mkEstimator (window_size self) (service_rates self) ps
    (confidence_scores self).

(** The loop over [range(1, len(timestamps))] building [intervals]. *)
Fixpoint intervals (timestamps : list datetime) : list float :=
  match timestamps with
  | t0 :: (t1 :: _) as rest => interval_minutes t0 t1 :: intervals rest
  | _ => []
  end.

(** The estimated queue length after the trend adjustment. *)
Definition adjusted_queue_length (trend : string) : float :=
  let estimated_queue_length := 5%float in
  if String.eqb trend "slowing_down" then (estimated_queue_length * 1.5)%float
  else if String.eqb trend "speeding_up"
       then (estimated_queue_length * 0.7)%float
  else estimated_queue_length.

Section Estimator.

Variable np_mean : list float -> float.
Variable np_std : list float -> float.

(** The trend classification, from the rate history as it stands after the
    current rate has been appended. *)
Definition classify_trend (rates : list float) : string :=
  if (length rates <? 3)%nat then "stable"%string
  else
    let recent_avg := np_mean (slice_last 3 rates) in
    let historical_avg :=
      if (3 <? length rates)%nat then np_mean (slice_but_last 3 rates)
      else recent_avg in
    if (historical_avg * 1.1 <? recent_avg)%float then "speeding_up"%string
    else if (recent_avg <? historical_avg * 0.9)%float
         then "slowing_down"%string
    else "stable"%string.

(** [calculate_service_rate]: the result and the estimator afterwards. *)
Definition calculate_service_rate (self : WaitTimeEstimator)
    (timestamps : list datetime)
  : (float * string) * WaitTimeEstimator :=
  if (length timestamps <? 2)%nat then ((0%float, "stable"%string), self)
  else
    let avg_interval := np_mean (intervals timestamps) in
    let current_rate :=
      if (0 <? avg_interval)%float then (1 / avg_interval)%float
      else 0%float in
    let self' :=
      set_service_rates self (service_rates self ++ [current_rate]) in
    ((current_rate, classify_trend (service_rates self')), self').

(** [estimate_wait_time]. *)
Definition estimate_wait_time (self : WaitTimeEstimator)
    (service_rate : float) (trend : string)
  : (float * string) * WaitTimeEstimator :=
  if (service_rate =? 0)%float then ((0%float, "Low"%string), self)
  else
    let estimated_wait := (adjusted_queue_length trend / service_rate)%float in
    let confidence :=
      if (length (service_rates self) <? 5)%nat then "Low"%string
      else if (np_std (slice_last 5 (service_rates self)) <? 0.1)%float
           then "High"%string
           else "Medium"%string in
    ((estimated_wait, confidence), self).

(** [detect_anomalies]; the history is an argument, not read from [self]. *)
Definition detect_anomalies (self : WaitTimeEstimator)
    (rates : list float)
  : option string * WaitTimeEstimator :=
  if (length rates <? 5)%nat then (None, self)
  else
    let recent := slice_last 5 rates in
    let historical :=
      if (5 <? length rates)%nat then slice_but_last 5 rates else recent in
    let recent_std := np_std recent in
    let historical_std :=
      if (1 <? length historical)%nat then np_std historical
      else recent_std in
    if (historical_std * 2 <? recent_std)%float then
      (Some
         "High service variability detected - possible staff interruptions"%string,
       self)
    else if (np_mean recent <? np_mean historical * 0.5)%float then
      (Some "Major slowdown detected - possible system issue"%string, self)
    else (None, self).

(** One iteration of the display loop in [simulate_public_display_output]:
    the three estimator calls, then the append to [predictions]. *)
Definition display_tick (self : WaitTimeEstimator)
    (recent_timestamps : list datetime) : WaitTimeEstimator :=
  let '((service_rate, trend), s1) :=
    calculate_service_rate self recent_timestamps in
  let '((wait_time, confidence), s2) :=
    estimate_wait_time s1 service_rate trend in
  let '(_, s3) := detect_anomalies s2 (service_rates s2) in
  set_predictions s3 (predictions s3 ++ [(wait_time, confidence)]).

End Estimator.

(** ** The generator *)

(** One entry of [service_completions] (a dict with these three keys). *)
Record CompletionEvent := mkEvent {
  timestamp : datetime;
  customer_id : Z;
  actual_service_time : float
}.

Record QueueSimulator := mkSimulator {
  hours : Z;
  base_service_time : float;
  service_completions : list CompletionEvent;
  actual_wait_times : list float
}.

(** [QueueSimulator.__init__]. *)
Definition new_simulator (hours : Z) (base_service_time : float)
  : QueueSimulator :=
  mkSimulator hours base_service_time [] [].

(** The [patterns] table. *)
Definition morning_rush : Z * Z := (0, 2).
Definition midday_slowdown : Z * Z := (2, 5).
Definition afternoon_recovery : Z * Z := (5, 7).
Definition evening_rush : Z * Z := (7, 8).

Definition in_pattern (p : Z * Z) (hour : Z) : bool :=
  (fst p <=? hour) && (hour <? snd p).

(** [(service_multiplier, customers_per_hour)] for an hour of the day. *)
Definition regime (hour : Z) : float * nat :=
  if in_pattern morning_rush hour then (0.8%float, 15%nat)
  else if in_pattern midday_slowdown hour then (1.5%float, 8%nat)
  else if in_pattern afternoon_recovery hour then (1.0%float, 12%nat)
  else (0.9%float, 14%nat).

(** [l[-2]], when it exists. *)
Definition second_to_last {A} (l : list A) : option A :=
  if (length l <? 2)%nat then None else nth_error l (length l - 2).

(** [timedelta(minutes=x)] in microseconds, reference implementation: the
    exact value of [x] minutes rounded to the nearest microsecond, ties to
    even (CPython rounds in two steps and can be one microsecond away).
    Non-finite [x], on which Python raises, is mapped to [0] by [minutes];
    [checked_minutes] raises as Python does: on a value that is not finite
    and on more than the 999999999 days a [timedelta] holds. *)
Module TimedeltaRef.

Definition round_half_even (n d : Z) : Z :=
  let q := n / d in
  match 2 * (n mod d) ?= d with
  | Lt => q
  | Gt => q + 1
  | Eq => if Z.even q then q else q + 1
  end.

Definition minutes (x : float) : Z :=
  match Prim2SF x with
  | S754_finite s m e =>
      let n := (if s then Z.neg m else Z.pos m) * (60 * us_per_second) in
      if 0 <=? e then n * 2 ^ e else round_half_even n (2 ^ (- e))
  | _ => 0
  end.

Definition checked_minutes (x : float) : option Z :=
  let delta := minutes x in
  if is_finite x
     && (- 999999999 * us_per_day <=? delta)
     && (delta <? 1000000000 * us_per_day)
  then Some delta else None.

End TimedeltaRef.

(** The local variables of [generate_synthetic_data] together with [self]. *)
Record GenState := mkGen {
  current_time : datetime;
  next_customer_id : Z;
  simulator : QueueSimulator
}.

Section Generator.

(** [timedelta(minutes=x)] in microseconds. *)
Variable timedelta_minutes : float -> Z.
(** The value [random.uniform(0.7, 1.3)] returns for a given customer. *)
Variable complexity_draw : Z -> float.
(** The value [random.random()] returns for a given customer. *)
Variable interruption_draw : Z -> float.

(** The body of the inner loop. *)
Definition serve_customer (service_multiplier : float) (g : GenState)
  : GenState :=
  let self := simulator g in
  let id := next_customer_id g in
  let complexity := complexity_draw id in
  let service_time :=
    (base_service_time self * service_multiplier * complexity)%float in
  let service_time :=
    if (interruption_draw id <? 0.05)%float then (service_time + 10)%float
    else service_time in
  let current_time := current_time g + timedelta_minutes service_time in
  let completions :=
    service_completions self ++ [mkEvent current_time id service_time] in
  let waits :=
    if 1 <? id then
      match second_to_last completions with
      | Some prev =>
          actual_wait_times self
            ++ [interval_minutes (timestamp prev) current_time]
      | None => actual_wait_times self
      end
    else actual_wait_times self in
  mkGen current_time (id + 1)
    (mkSimulator (hours self) (base_service_time self) completions waits).

(** [for _ in range(customers_per_hour)]. *)
Fixpoint serve_customers (n : nat) (service_multiplier : float)
    (g : GenState) : GenState :=
  match n with
  | O => g
  | S n' => serve_customers n' service_multiplier
              (serve_customer service_multiplier g)
  end.

(** The body of the outer loop. *)
Definition simulate_hour (hour : Z) (g : GenState) : GenState :=
  let '(service_multiplier, customers_per_hour) := regime hour in
  serve_customers customers_per_hour service_multiplier g.

(** [for hour in range(self.hours)], from [hour] on, [n] hours left. *)
Fixpoint simulate_hours (n : nat) (hour : Z) (g : GenState) : GenState :=
  match n with
  | O => g
  | S n' => simulate_hours n' (hour + 1) (simulate_hour hour g)
  end.

(** [generate_synthetic_data]; [start_time] is what the clock read gives.
    Returns the rows of the data frame and the simulator afterwards. *)
Definition generate_synthetic_data (start_time : datetime)
    (self : QueueSimulator) : list CompletionEvent * QueueSimulator :=
  let g := simulate_hours (Z.to_nat (hours self)) 0
             (mkGen start_time 1 self) in
  (service_completions (simulator g), simulator g).

End Generator.

(** ** The generator with its exceptions

    The one line of the loop that can raise is
    [current_time += timedelta(minutes=service_time)]: [timedelta] raises on
    a number of minutes that is not finite or beyond its range, and the
    addition raises when the sum is no date a [datetime] holds.  Here
    [timedelta] returns [None] where it raises, and so does the loop. *)

Section CheckedGenerator.

Variable timedelta : float -> option Z.
Variable complexity_draw : Z -> float.
Variable interruption_draw : Z -> float.

Definition serve_customer_checked (service_multiplier : float) (g : GenState)
  : option GenState :=
  let self := simulator g in
  let id := next_customer_id g in
  let complexity := complexity_draw id in
  let service_time :=
    (base_service_time self * service_multiplier * complexity)%float in
  let service_time :=
    if (interruption_draw id <? 0.05)%float then (service_time + 10)%float
    else service_time in
  match timedelta service_time with
  | None => None
  | Some delta =>
      let current_time := current_time g + delta in
      if valid_datetime current_time then
        let completions :=
          service_completions self ++ [mkEvent current_time id service_time] in
        let waits :=
          if 1 <? id then
            match second_to_last completions with
            | Some prev =>
                actual_wait_times self
                  ++ [interval_minutes (timestamp prev) current_time]
            | None => actual_wait_times self
            end
          else actual_wait_times self in
        Some (mkGen current_time (id + 1)
                (mkSimulator (hours self) (base_service_time self)
                   completions waits))
      else None
  end.

Fixpoint serve_customers_checked (n : nat) (service_multiplier : float)
    (g : GenState) : option GenState :=
  match n with
  | O => Some g
  | S n' =>
      match serve_customer_checked service_multiplier g with
      | None => None
      | Some g' => serve_customers_checked n' service_multiplier g'
      end
  end.

Definition simulate_hour_checked (hour : Z) (g : GenState)
  : option GenState :=
  let '(service_multiplier, customers_per_hour) := regime hour in
  serve_customers_checked customers_per_hour service_multiplier g.

Fixpoint simulate_hours_checked (n : nat) (hour : Z) (g : GenState)
  : option GenState :=
  match n with
  | O => Some g
  | S n' =>
      match simulate_hour_checked hour g with
      | None => None
      | Some g' => simulate_hours_checked n' (hour + 1) g'
      end
  end.

(** [generate_synthetic_data]: the rows of the data frame and the simulator
    afterwards, or [None] when line 78 raises. *)
Definition generate_synthetic_data_checked (start_time : datetime)
    (self : QueueSimulator)
  : option (list CompletionEvent * QueueSimulator) :=
  match simulate_hours_checked (Z.to_nat (hours self)) 0
          (mkGen start_time 1 self) with
  | None => None
  | Some g => Some (service_completions (simulator g), simulator g)
  end.

End CheckedGenerator.

(** The conversion a run that returns has used. *)
Definition returned_delta (timedelta : float -> option Z) (x : float) : Z :=
  match timedelta x with Some delta => delta | None => 0 end.

(** ** The display loop *)

(** [range(start, stop, step)]; a step of zero raises [ValueError]. *)
Definition py_range (start stop step : Z) : option (list Z) :=
  if step =? 0 then None
  else
    let count :=
      if 0 <? step then (stop - start + step - 1) / step
      else (start - stop - step - 1) / (- step) in
    Some (map (fun k => start + Z.of_nat k * step) (seq 0 (Z.to_nat count))).

(** [l[a:b]] for bounds that are not negative (as they are in the loop:
    [a] is [max(0, ...)] and [b] is a loop index of a range that starts at a
    positive step). *)
Definition slice_between {A} (a b : Z) (l : list A) : list A :=
  skipn (Z.to_nat a) (firstn (Z.to_nat b) l).

(** What one pass of the loop prints: the time of the update, the estimated
    wait, the service status, the confidence, and the alert if there is
    one.  The values are kept as computed; their formatting is not
    modelled. *)
Record DisplayUpdate := mkUpdate {
  update_time : datetime;
  shown_wait : float;
  shown_status : string;
  shown_confidence : string;
  shown_alert : option string
}.

Section Display.

Variable np_mean : list float -> float.
Variable np_std : list float -> float.

(** The body of the loop at index [i]. *)
Definition display_update (timestamps : list datetime)
    (estimator : WaitTimeEstimator) (i : Z)
  : DisplayUpdate * WaitTimeEstimator :=
  let recent_timestamps :=
    slice_between (Z.max 0 (i - window_size estimator)) i timestamps in
  let '((service_rate, trend), s1) :=
    calculate_service_rate np_mean estimator recent_timestamps in
  let '((wait_time, confidence), s2) :=
    estimate_wait_time np_std s1 service_rate trend in
  let '(anomaly, s3) := detect_anomalies np_mean np_std s2 (service_rates s2) in
  let s4 := set_predictions s3 (predictions s3 ++ [(wait_time, confidence)]) in
  (mkUpdate (nth (Z.to_nat i) timestamps 0) wait_time trend confidence anomaly,
   s4).

(** The loop over the indices [ticks]. *)
Fixpoint display_updates (timestamps : list datetime) (ticks : list Z)
    (estimator : WaitTimeEstimator)
  : list DisplayUpdate * WaitTimeEstimator :=
  match ticks with
  | [] => ([], estimator)
  | i :: rest =>
      let '(u, s) := display_update timestamps estimator i in
      let '(us, s') := display_updates timestamps rest s in
      (u :: us, s')
  end.

(** [simulate_public_display_output], from the list of timestamps on: the
    updates printed and the estimator afterwards, or [None] when the range
    raises. *)
Definition simulate_public_display_output (estimator : WaitTimeEstimator)
    (timestamps : list datetime) (update_interval : Z)
  : option (list DisplayUpdate * WaitTimeEstimator) :=
  match py_range update_interval (Z.of_nat (length timestamps))
          update_interval with
  | None => None
  | Some ticks => Some (display_updates timestamps ticks estimator)
  end.

End Display.

(** ** The chart *)

(** The [patterns] list of [visualize_results]. *)
Definition chart_patterns : list (Z * Z * string) :=
  [(0, 30, "Morning Rush"%string); (30, 75, "Midday Slowdown"%string);
   (75, 105, "Afternoon Recovery"%string); (105, 120, "Evening Rush"%string)].

(** The [colors] dict; a missing key raises [KeyError]. *)
Definition colors (c : string) : option string :=
  if String.eqb c "High" then Some "green"%string
  else if String.eqb c "Medium" then Some "orange"%string
  else if String.eqb c "Low" then Some "red"%string
  else None.

(** [max(l)]: the first element unless a later one compares greater; an
    empty list raises [ValueError]. *)
Definition py_max (l : list float) : option float :=
  match l with
  | [] => None
  | x :: rest =>
      Some (fold_left (fun m y => if (m <? y)%float then y else m) rest x)
  end.

(** [[colors[c] for c in confidences]]. *)
Fixpoint conf_colors (confidences : list string) : option (list string) :=
  match confidences with
  | [] => Some []
  | c :: rest =>
      match colors c with
      | None => None
      | Some colour =>
          match conf_colors rest with
          | None => None
          | Some colours => Some (colour :: colours)
          end
      end
  end.

(** The loop over the patterns: a shaded span and a text label for every
    pattern that starts inside the data. *)
Fixpoint highlight (service_rates : list float)
    (patterns : list (Z * Z * string))
  : option (list (Z * Z) * list (float * float * string)) :=
  match patterns with
  | [] => Some ([], [])
  | (start, stop, label) :: rest =>
      if start <? Z.of_nat (length service_rates) then
        match py_max service_rates with
        | None => None
        | Some highest =>
            match highlight service_rates rest with
            | None => None
            | Some (spans, labels) =>
                Some ((start, Z.min stop (Z.of_nat (length service_rates)))
                        :: spans,
                      ((float_of_Z (start + stop) / 2)%float,
                       (highest * 0.9)%float, label) :: labels)
            end
        end
      else highlight service_rates rest
  end.

(** What [visualize_results] draws. *)
Record Figure := mkFigure {
  rate_line : list float;
  average_line : float;
  spans : list (Z * Z);
  labels : list (float * float * string);
  bars : list (float * string);
  overlay : option (list float)
}.

(** The validation curve: drawn when there are wait times, at least as many
    as predictions, and cut to their number. *)
Definition validation_overlay (actual_wait_times : option (list float))
    (pred_times : list float) : option (list float) :=
  match actual_wait_times with
  | Some (w :: ws) =>
      if (length pred_times <=? length (w :: ws))%nat
      then Some (firstn (length pred_times) (w :: ws))
      else None
  | _ => None
  end.

(** [visualize_results], as the arguments of its drawing calls; [None] when
    a lookup of the function's own raises.  What Matplotlib does with the
    arguments is not modelled: a drawing call can still raise where the
    model gives a figure (on rates too large to plot, for one), so [None]
    means that the function raises, and [Some] that it reaches its drawing
    calls with these arguments. *)
Definition visualize_results (np_mean : list float -> float)
    (service_rates : list float) (predictions : list (float * string))
    (actual_wait_times : option (list float)) : option Figure :=
  match highlight service_rates chart_patterns with
  | None => None
  | Some (spans, labels) =>
      match predictions with
      | [] =>
          Some (mkFigure service_rates (np_mean service_rates) spans labels
                  [] None)
      | _ :: _ =>
          let pred_times := map fst predictions in
          let confidences := map snd predictions in
          match conf_colors confidences with
          | None => None
          | Some colours =>
              Some (mkFigure service_rates (np_mean service_rates) spans
                      labels (combine pred_times colours)
                      (validation_overlay actual_wait_times pred_times))
          end
      end
  end.

(** ** The demonstration *)



(* ================================================================== *)
(** * Part II: vocabulary of the specification *)
(* ================================================================== *)

(** [l1] is an initial segment of [l2]: [l2] is [l1] with elements appended. *)
Definition prefix_of {A} (l1 l2 : list A) : Prop :=
  exists appended, l2 = l1 ++ appended.

(** The trend multiplier as the specification tabulates it. *)
Definition trend_multiplier (trend : string) : option float :=
  if String.eqb trend "slowing_down" then Some 1.5%float
  else if String.eqb trend "speeding_up" then Some 0.7%float
  else if String.eqb trend "stable" then Some 1.0%float
  else None.

(** The intervals of a window as the source measures them, by index: entry
    [i] is the [.seconds / 60] reading of the gap between [timestamps[i]]
    and [timestamps[i+1]]. *)
Definition consecutive_intervals (timestamps : list datetime) : list float :=
  map (fun i => interval_minutes (nth i timestamps 0) (nth (S i) timestamps 0))
      (seq 0 (length timestamps - 1)).

(** The specification's inter-event interval: the time elapsed between two
    timestamps, in minutes. *)
Definition float_of_signed (z : Z) : float :=
  if z <? 0 then (- float_of_Z (- z))%float else float_of_Z z.

Definition elapsed_minutes (t0 t1 : datetime) : float :=
  (float_of_signed (t1 - t0) / 1000000 / 60)%float.

Definition elapsed_intervals (timestamps : list datetime) : list float :=
  map (fun i => elapsed_minutes (nth i timestamps 0) (nth (S i) timestamps 0))
      (seq 0 (length timestamps - 1)).

(** The rate in the specification's words: 1 divided by the mean of the
    inter-event intervals, or 0 if that mean is 0. *)
Definition rate_policy (np_mean : list float -> float)
    (timestamps : list datetime) : float :=
  let mean_interval := np_mean (elapsed_intervals timestamps) in
  if (mean_interval =? 0)%float then 0%float else (1 / mean_interval)%float.

(** The trend policy in the specification's words: [recent] is the mean of
    the last three samples, [historical] the mean of the samples before them,
    or [recent] again when there are none. *)
Definition trend_policy (np_mean : list float -> float)
    (before last3 : list float) : string :=
  let recent := np_mean last3 in
  let historical :=
    match before with [] => recent | _ => np_mean before end in
  if (historical * 1.1 <? recent)%float then "speeding_up"%string
  else if (recent <? historical * 0.9)%float then "slowing_down"%string
  else "stable"%string.

(** [last5] is the last five samples of [history]: the history is some
    samples followed by these five. *)
Definition last_five (history last5 : list float) : Prop :=
  exists before, history = before ++ last5 /\ length last5 = 5%nat.

(** The two anomaly messages. *)
Definition high_variability : string :=
  "High service variability detected - possible staff interruptions".
Definition major_slowdown : string :=
  "Major slowdown detected - possible system issue".

(** The anomaly rule on an explicit split of the history into the samples
    [before] the last five and the last five, [recent]. *)
Definition anomaly_rule (np_mean np_std : list float -> float)
    (before recent : list float) : option string :=
  let recent_std := np_std recent in
  let historical_std :=
    match before with
    | _ :: _ :: _ => np_std before
    | _ => recent_std
    end in
  let historical_mean :=
    match before with [] => np_mean recent | _ => np_mean before end in
  if (historical_std * 2 <? recent_std)%float then Some high_variability
  else if (np_mean recent <? historical_mean * 0.5)%float
       then Some major_slowdown
  else None.

(** The estimator's public operations, as values. *)
Inductive call :=
| CalculateServiceRate (timestamps : list datetime)
| EstimateWaitTime (service_rate : float) (trend : string)
| DetectAnomalies (rates : list float).

(** The estimator after a call. *)
Definition after_call (np_mean np_std : list float -> float)
    (self : WaitTimeEstimator) (c : call) : WaitTimeEstimator :=
  match c with
  | CalculateServiceRate ts => snd (calculate_service_rate np_mean self ts)
  | EstimateWaitTime r t => snd (estimate_wait_time np_std self r t)
  | DetectAnomalies rs => snd (detect_anomalies np_mean np_std self rs)
  end.

(** The estimator after a sequence of calls. *)
Definition after_calls (np_mean np_std : list float -> float)
    (self : WaitTimeEstimator) (calls : list call) : WaitTimeEstimator :=
  fold_left (after_call np_mean np_std) calls self.

(** The events form a chain from instant [t] and id [id]: each event carries
    the next id, and its timestamp is the previous instant advanced by its
    own service time. *)
Fixpoint chained (timedelta_minutes : float -> Z) (t : datetime) (id : Z)
    (events : list CompletionEvent) : Prop :=
  match events with
  | [] => True
  | e :: rest =>
      customer_id e = id
      /\ timestamp e = t + timedelta_minutes (actual_service_time e)
      /\ chained timedelta_minutes (timestamp e) (id + 1) rest
  end.

(** The instant the clock shows after the events. *)
Definition end_time (t : datetime) (events : list CompletionEvent) : datetime :=
  last (map timestamp events) t.

(** The loop invariant of [generate_synthetic_data], for a run that began
    at [start] with no stored event. *)
Definition stream_invariant (timedelta_minutes : float -> Z)
    (start : datetime) (g : GenState) : Prop :=
  let events := service_completions (simulator g) in
  chained timedelta_minutes start 1 events
  /\ next_customer_id g = 1 + Z.of_nat (length events)
  /\ current_time g = end_time start events.

(** The validation sequence holds one wait per stored event after the
    first. *)
Definition waits_invariant (g : GenState) : Prop :=
  let self := simulator g in
  next_customer_id g = 1 + Z.of_nat (length (service_completions self))
  /\ length (actual_wait_times self)
     = (length (service_completions self) - 1)%nat.

(** Strictly increasing: every element is below every later one. *)
Definition strictly_increasing (l : list Z) : Prop :=
  forall i j x y, (i < j)%nat -> nth_error l i = Some x ->
    nth_error l j = Some y -> x < y.

(** The ids [1, 2, ..., n]. *)
Definition ids_from_one (n : nat) : list Z :=
  map (fun k => Z.of_nat k) (seq 1 n).

(** ** Signs of binary64 numbers *)

(** Not below zero: zero of either sign, a positive number, or not a
    number. *)
Definition not_negative (x : float) : Prop := (x <? 0)%float = false.

(** The same on the specification-level representation. *)
Definition sf_not_negative (x : spec_float) : bool :=
  match x with
  | S754_finite true _ _ | S754_infinity true => false
  | _ => true
  end.

(** The sign bit is clear (so not a negative zero either). *)
Definition sf_sign_clear (x : spec_float) : bool :=
  match x with
  | S754_zero s | S754_infinity s | S754_finite s _ _ => negb s
  | S754_nan => true
  end.

(** The mantissa of the binary64 numbers 2 and 0.5: 2^52. *)
Definition two52 : positive := 4503599627370496.

(** ** Vocabulary for the further properties *)

(** At least zero: zero of either sign or a positive number, and so not "not
    a number". *)
Definition at_least_zero (x : float) : Prop := (0 <=? x)%float = true.

(** The same on the specification-level representation. *)
Definition sf_at_least_zero (x : spec_float) : bool :=
  match x with
  | S754_zero _ | S754_finite false _ _ | S754_infinity false => true
  | _ => false
  end.

(** Above zero, on the specification-level representation. *)
Definition sf_above_zero (x : spec_float) : bool :=
  match x with
  | S754_finite false _ _ | S754_infinity false => true
  | _ => false
  end.

(** The labels the estimator works with. *)
Definition known_confidence (c : string) : Prop :=
  c = "High"%string \/ c = "Medium"%string \/ c = "Low"%string.

Definition known_trend (t : string) : Prop :=
  t = "speeding_up"%string \/ t = "slowing_down"%string \/ t = "stable"%string.

(** The pair a display update stores in [predictions]. *)
Definition shown_prediction (u : DisplayUpdate) : float * string :=
  (shown_wait u, shown_confidence u).

(** An update that shows known labels and a wait that is at least zero. *)
Definition sound_update (u : DisplayUpdate) : Prop :=
  known_confidence (shown_confidence u)
  /\ known_trend (shown_status u)
  /\ at_least_zero (shown_wait u).

(** The number of customers served in the first [hours] hours of a day, in
    closed form: 15 an hour for two hours, 8 an hour until hour five, 12 an
    hour until hour seven, 14 an hour from then on. *)
Definition customers_in_hours (hours : Z) : Z :=
  if hours <=? 0 then 0
  else if hours <=? 2 then 15 * hours
  else if hours <=? 5 then 30 + 8 * (hours - 2)
  else if hours <=? 7 then 54 + 12 * (hours - 5)
  else 78 + 14 * (hours - 7).

(** The loop invariant of [generate_synthetic_data] on any simulator: the
    events and waits stored before the run are still there, followed by what
    the run has added so far. *)
Definition run_invariant (old_events : list CompletionEvent)
    (old_waits : list float) (g : GenState) : Prop :=
  exists new_events,
    service_completions (simulator g) = old_events ++ new_events
    /\ next_customer_id g = 1 + Z.of_nat (length new_events)
    /\ map customer_id new_events = ids_from_one (length new_events)
    /\ actual_wait_times (simulator g)
       = old_waits ++ intervals (map timestamp new_events).

(** A shaded span that lies inside [n] data points and is not empty. *)
Definition span_within (n : Z) (span : Z * Z) : Prop :=
  0 <= fst span < snd span /\ snd span <= n.

(** A check of [f] on the [n] integers from [s] on. *)
Fixpoint all_from (f : Z -> bool) (n : nat) (s : Z) : bool :=
  match n with
  | O => true
  | S n' => if f s then all_from f n' (s + 1) else false
  end.

(** ** Sample data *)

(** Four completions five minutes apart. *)
Definition sample_window : list datetime :=
  [0; 300000000; 600000000; 900000000].

(** A window too short to measure an interval. *)
Definition short_window : list datetime := [0].

(** An estimator whose history holds five samples of 0.5. *)
Definition steady_estimator : WaitTimeEstimator :=
  mkEstimator 10 [0.5; 0.5; 0.5; 0.5; 0.5]%float [] [].

(** An estimator whose history holds four samples, the later two higher. *)
Definition warming_estimator : WaitTimeEstimator :=
  mkEstimator 10 [0.1; 0.1; 0.2; 0.2]%float [] [].

(** A rate of 4 per minute followed by five samples of 1 per minute. *)
Definition slowed_history : list float := [4; 1; 1; 1; 1; 1]%float.

(** Draws with no variation: unit complexity, no interruption. *)
Definition unit_complexity (_ : Z) : float := 1%float.
Definition no_interruption (_ : Z) : float := 0.5%float.

(** A simulator that has already produced one hour of events. *)
Definition used_simulator : QueueSimulator :=
  snd (generate_synthetic_data TimedeltaRef.minutes unit_complexity
         no_interruption 0 (new_simulator 1 5)).

(** Draws at the two ends of the complexity range, with an interruption for
    every twentieth customer. *)
Definition alternating_complexity (id : Z) : float :=
  if Z.even id then 0.7%float else 1.3%float.
Definition occasional_interruption (id : Z) : float :=
  if id mod 20 =? 0 then 0.01%float else 0.5%float.

(** Three completions recorded out of order. *)
Definition backwards_window : list datetime := [600000000; 0; 300000000].

(** The timestamps of a full day of 8 hours at a base duration of 4
    minutes. *)
Definition day_stream : list datetime :=
  map timestamp
    (fst (generate_synthetic_data TimedeltaRef.minutes alternating_complexity
            occasional_interruption 0 (new_simulator 8 4))).

(** Rates, predictions and measured waits for a small chart. *)
Definition sample_rates : list float := [0.5; 0.25]%float.
Definition sample_predictions : list (float * string) :=
  [(10%float, "Low"%string); (20%float, "High"%string)].
Definition sample_waits : list float := [2; 4; 4]%float.

(** The display loop over [sample_window], one update per completion. *)
Definition sample_run : list DisplayUpdate * WaitTimeEstimator :=
  display_updates NumpyRef.mean NumpyRef.std sample_window [1; 2; 3]
    (new_estimator 10).

(** Three completions half a second apart, and two completions a day and a
    minute apart. *)
Definition half_second_window : list datetime := [0; 500000; 1000000].
Definition overnight_window : list datetime := [0; 86460000000].

(** Predictions of which one carries a confidence that is no key of
    [colors]. *)
Definition unlabelled_predictions : list (float * string) :=
  [(10%float, "Low"%string); (12%float, "Unknown"%string)].

(** A second run on [used_simulator], an hour after the first. *)
Definition second_run : list CompletionEvent * QueueSimulator :=
  generate_synthetic_data TimedeltaRef.minutes unit_complexity
    no_interruption 3600000000 used_simulator.

(* ================================================================== *)
(** * Part III: properties *)
(* ================================================================== *)

(** ** Facts about binary64 comparisons *)

Lemma prim_zero : Prim2SF 0%float = S754_zero false.
Proof. reflexivity. Qed.

(** A float above zero is not equal to zero. *)
Lemma float_pos_neq_zero (r : float) :
  (0 <? r)%float = true -> (r =? 0)%float = false.
Proof.
  rewrite FloatAxioms.ltb_spec, FloatAxioms.eqb_spec, prim_zero.
  destruct (Prim2SF r) as [s|s| |s m e]; try destruct s; cbn; congruence.
Qed.

(** A float equal to zero (either sign) is not above zero. *)
Lemma float_zero_not_pos (a : float) :
  (a =? 0)%float = true -> (0 <? a)%float = false.
Proof.
  rewrite FloatAxioms.ltb_spec, FloatAxioms.eqb_spec, prim_zero.
  destruct (Prim2SF a) as [s|s| |s m e]; try destruct s; cbn; congruence.
Qed.

(** ** Doubling and halving in binary64

    Multiplication by 2 and by 0.5 only moves the exponent, except at the
    bottom of the range, where halving rounds (ties to even).  Either way a
    float that is not negative is not above its double and not below its
    half.  The proofs unfold the rounding of [SpecFloat] on a valid
    mantissa. *)

Lemma fexp_eq (x : Z) : fexp prec emax x = Z.max (x - 53) (-1074).
Proof. reflexivity. Qed.

Lemma valid_finite_inv (s : bool) (m : positive) (e : Z) :
  valid_binary (S754_finite s m e) = true ->
  Z.max (Z.pos (digits2_pos m) + e - 53) (-1074) = e /\ e <= 971.
Proof.
  cbn [SpecFloat.valid_binary]. unfold bounded, canonical_mantissa.
  rewrite fexp_eq. intros H. apply andb_prop in H. destruct H as [H1 H2].
  apply Z.eqb_eq in H1. apply Z.leb_le in H2.
  change (emax - prec) with 971 in H2.
  split; assumption.
Qed.

Lemma digits2_shift52 (m : positive) :
  Z.pos (digits2_pos (two52 * m)) = Z.pos (digits2_pos m) + 52.
Proof.
  unfold two52. cbn [Pos.mul digits2_pos]. lia.
Qed.

Lemma iter_shr_52 (m : positive) :
  iter_pos shr_1 52
    {| shr_m := Z.pos (two52 * m); shr_r := false; shr_s := false |}
  = {| shr_m := Z.pos m; shr_r := false; shr_s := false |}.
Proof. reflexivity. Qed.

Lemma iter_shr_51 (m : positive) :
  iter_pos shr_1 51
    {| shr_m := Z.pos (two52 * m); shr_r := false; shr_s := false |}
  = {| shr_m := Z.pos m~0; shr_r := false; shr_s := false |}.
Proof. reflexivity. Qed.

Lemma iter_shr_53 (m : positive) :
  iter_pos shr_1 53
    {| shr_m := Z.pos (two52 * m); shr_r := false; shr_s := false |}
  = shr_1 {| shr_m := Z.pos m; shr_r := false; shr_s := false |}.
Proof. reflexivity. Qed.

(** A mantissa already in canonical position is not shifted. *)
Lemma shr_fexp_canonical (m : positive) (e : Z) :
  Z.max (Z.pos (digits2_pos m) + e - 53) (-1074) = e ->
  shr_fexp prec emax (Z.pos m) e loc_Exact
  = ({| shr_m := Z.pos m; shr_r := false; shr_s := false |}, e).
Proof.
  intros H. unfold shr_fexp. rewrite fexp_eq. cbn [Zdigits2].
  rewrite H, Z.sub_diag. reflexivity.
Qed.

(** Incrementing a mantissa adds at most one binary digit. *)
Lemma digits2_succ_le (p : positive) :
  Z.pos (digits2_pos (Pos.succ p)) <= Z.pos (digits2_pos p) + 1.
Proof.
  induction p as [p IH|p IH|]; cbn [Pos.succ digits2_pos]; lia.
Qed.

Lemma sf_double_not_below (mx : positive) (ex : Z) :
  valid_binary (S754_finite false mx ex) = true ->
  SFltb (SF64mul (S754_finite false mx ex) (S754_finite false two52 (-51)))
        (S754_finite false mx ex) = false.
Proof.
  intros Hv. apply valid_finite_inv in Hv. destruct Hv as [Hc He].
  unfold SF64mul, SFmul. cbn [xorb].
  rewrite Pos.mul_comm.
  unfold binary_round_aux.
  unfold shr_fexp at 1. rewrite fexp_eq.
  cbn [Zdigits2 shr_record_of_loc]. rewrite digits2_shift52.
  set (D := Z.pos (digits2_pos mx)) in *.
  assert (Hcases : (D = 53 /\ -1074 <= ex) \/ (D <= 52 /\ ex = -1074)) by lia.
  destruct Hcases as [[HD Hex]|[HD Hex]].
  - replace (Z.max (D + 52 + (ex + -51) - 53) (-1074) - (ex + -51)) with 52
      by lia.
    cbn [shr]. rewrite iter_shr_52.
    cbn [shr_m loc_of_shr_record round_nearest_even].
    rewrite shr_fexp_canonical by (fold D; lia).
    cbn [shr_m].
    destruct (ex + -51 + 52 <=? emax - prec); [|reflexivity].
    unfold SFltb, SFcompare.
    replace (ex + -51 + 52 ?= ex) with Gt
      by (symmetry; apply Z.compare_gt_iff; lia).
    reflexivity.
  - replace (Z.max (D + 52 + (ex + -51) - 53) (-1074) - (ex + -51)) with 51
      by lia.
    cbn [shr]. rewrite iter_shr_51.
    cbn [shr_m loc_of_shr_record round_nearest_even].
    rewrite shr_fexp_canonical by (cbn [digits2_pos]; fold D; lia).
    cbn [shr_m].
    replace (ex + -51 + 51 <=? emax - prec) with true
      by (symmetry; apply Z.leb_le; change (emax - prec) with 971; lia).
    unfold SFltb, SFcompare.
    replace (ex + -51 + 51 ?= ex) with Eq
      by (symmetry; apply Z.compare_eq_iff; lia).
    replace (PosDef.Pos.compare_cont Eq mx~0 mx) with Gt; [reflexivity|].
    symmetry.
    change (PosDef.Pos.compare_cont Eq mx~0 mx) with (Pos.compare mx~0 mx).
    apply Pos.compare_gt_iff. lia.
Qed.

Lemma sf_half_not_above (mx : positive) (ex : Z) :
  valid_binary (S754_finite false mx ex) = true ->
  SFltb (S754_finite false mx ex)
        (SF64mul (S754_finite false mx ex) (S754_finite false two52 (-53)))
  = false.
Proof.
  intros Hv. apply valid_finite_inv in Hv. destruct Hv as [Hc He].
  unfold SF64mul, SFmul. cbn [xorb].
  rewrite Pos.mul_comm.
  unfold binary_round_aux.
  unfold shr_fexp at 1. rewrite fexp_eq.
  cbn [Zdigits2 shr_record_of_loc]. rewrite digits2_shift52.
  set (D := Z.pos (digits2_pos mx)) in *.
  assert (Hcases : (D = 53 /\ -1074 < ex) \/ (D <= 53 /\ ex = -1074)) by lia.
  destruct Hcases as [[HD Hex]|[HD Hex]].
  - replace (Z.max (D + 52 + (ex + -53) - 53) (-1074) - (ex + -53)) with 52
      by lia.
    cbn [shr]. rewrite iter_shr_52.
    cbn [shr_m loc_of_shr_record round_nearest_even].
    rewrite shr_fexp_canonical by (fold D; lia).
    cbn [shr_m].
    replace (ex + -53 + 52 <=? emax - prec) with true
      by (symmetry; apply Z.leb_le; change (emax - prec) with 971; lia).
    unfold SFltb, SFcompare.
    replace (ex ?= ex + -53 + 52) with Gt
      by (symmetry; apply Z.compare_gt_iff; lia).
    reflexivity.
  - replace (Z.max (D + 52 + (ex + -53) - 53) (-1074) - (ex + -53)) with 53
      by lia.
    cbn [shr]. rewrite iter_shr_53.
    replace (ex + -53 + 53) with ex by lia.
    subst D. destruct mx as [p|p|]; cbn [shr_1 orb digits2_pos] in *.
    + (* odd mantissa: a tie, rounded to even *)
      cbn [shr_m shr_r shr_s loc_of_shr_record round_nearest_even].
      assert (Hm : exists m2,
                 (if IntDef.Z.even (Z.pos p) then Z.pos p else Z.pos p + 1)
                 = Z.pos m2
                 /\ Z.pos (digits2_pos m2) <= Z.pos (digits2_pos p) + 1
                 /\ (m2 <= p + 1)%positive).
      { destruct (IntDef.Z.even (Z.pos p)).
        - exists p. split; [reflexivity|]. split; lia.
        - exists (Pos.succ p). split; [cbn; f_equal; lia|].
          split; [apply digits2_succ_le | lia]. }
      destruct Hm as (m2 & -> & Hd2 & Hle).
      rewrite shr_fexp_canonical by lia.
      cbn [shr_m].
      replace (ex <=? emax - prec) with true
        by (symmetry; apply Z.leb_le; change (emax - prec) with 971; lia).
      unfold SFltb, SFcompare. rewrite Z.compare_refl.
      change (PosDef.Pos.compare_cont Eq p~1 m2) with (Pos.compare p~1 m2).
      replace (Pos.compare p~1 m2) with Gt; [reflexivity|].
      symmetry. apply Pos.compare_gt_iff. lia.
    + cbn [shr_m shr_r shr_s loc_of_shr_record round_nearest_even].
      rewrite shr_fexp_canonical by lia.
      cbn [shr_m].
      replace (ex <=? emax - prec) with true
        by (symmetry; apply Z.leb_le; change (emax - prec) with 971; lia).
      unfold SFltb, SFcompare. rewrite Z.compare_refl.
      change (PosDef.Pos.compare_cont Eq p~0 p) with (Pos.compare p~0 p).
      replace (Pos.compare p~0 p) with Gt; [reflexivity|].
      symmetry. apply Pos.compare_gt_iff. lia.
    + subst ex. reflexivity.
Qed.

(** A float that is not negative is not above its double. *)
Lemma float_double_not_below (s : float) :
  not_negative s -> (s * 2 <? s)%float = false.
Proof.
  unfold not_negative.
  rewrite !FloatAxioms.ltb_spec, FloatAxioms.mul_spec.
  pose proof (Prim2SF_valid s) as Hv.
  change (Prim2SF 2) with (S754_finite false two52 (-51)).
  change (Prim2SF 0) with (S754_zero false).
  destruct (Prim2SF s) as [sg|sg| |sg mx ex].
  - destruct sg; reflexivity.
  - destruct sg; [discriminate | reflexivity].
  - reflexivity.
  - destruct sg; [discriminate|]. intros _. now apply sf_double_not_below.
Qed.

(** A float that is not negative is not below its half. *)
Lemma float_half_not_above (m : float) :
  not_negative m -> (m <? m * 0.5)%float = false.
Proof.
  unfold not_negative.
  rewrite !FloatAxioms.ltb_spec, FloatAxioms.mul_spec.
  pose proof (Prim2SF_valid m) as Hv.
  change (Prim2SF 0.5) with (S754_finite false two52 (-53)).
  change (Prim2SF 0) with (S754_zero false).
  destruct (Prim2SF m) as [sg|sg| |sg mx ex].
  - destruct sg; reflexivity.
  - destruct sg; [discriminate | reflexivity].
  - reflexivity.
  - destruct sg; [discriminate|]. intros _. now apply sf_half_not_above.
Qed.

(** ** Signs through binary64 operations

    Rounding keeps the sign it is given, so sums and quotients of numbers
    that are not negative are not negative, and a square root never is. *)

Lemma not_negative_spec (x : float) :
  not_negative x <-> sf_not_negative (Prim2SF x) = true.
Proof.
  unfold not_negative. rewrite FloatAxioms.ltb_spec, prim_zero.
  destruct (Prim2SF x) as [s|s| |s m e]; try destruct s; cbn;
    split; congruence.
Qed.

Lemma round_aux_sign_clear (m e : Z) (l : location) :
  sf_sign_clear (binary_round_aux prec emax false m e l) = true.
Proof.
  unfold binary_round_aux.
  destruct (shr_fexp prec emax m e l) as [mrs' e'].
  destruct (shr_fexp prec emax _ e' loc_Exact) as [mrs'' e''].
  destruct (shr_m mrs''); [reflexivity | | reflexivity].
  destruct (e'' <=? emax - prec); reflexivity.
Qed.

Lemma sign_clear_not_negative (x : spec_float) :
  sf_sign_clear x = true -> sf_not_negative x = true.
Proof. destruct x as [s|s| |s m e]; try destruct s; cbn; congruence. Qed.

Lemma round_aux_not_negative (m e : Z) (l : location) :
  sf_not_negative (binary_round_aux prec emax false m e l) = true.
Proof. apply sign_clear_not_negative, round_aux_sign_clear. Qed.

Lemma round_not_negative (m : positive) (e : Z) :
  sf_not_negative (binary_round prec emax false m e) = true.
Proof.
  unfold binary_round. destruct (shl_align m e _) as [mz ez].
  apply round_aux_not_negative.
Qed.

Lemma normalize_sign_clear (m e : Z) :
  0 <= m -> sf_sign_clear (binary_normalize prec emax m e false) = true.
Proof.
  intros Hm. destruct m as [|p|p]; cbn [binary_normalize].
  - reflexivity.
  - unfold binary_round. destruct (shl_align p e _) as [mz ez].
    apply round_aux_sign_clear.
  - lia.
Qed.

Lemma sf_add_not_negative (x y : spec_float) :
  sf_not_negative x = true -> sf_not_negative y = true ->
  sf_not_negative (SF64add x y) = true.
Proof.
  destruct x as [sx|sx| |sx mx ex], y as [sy|sy| |sy my ey];
    try destruct sx; try destruct sy; cbn; try congruence; intros _ _.
  apply round_not_negative.
Qed.

Lemma sf_div_not_negative (x y : spec_float) :
  sf_not_negative x = true -> sf_sign_clear y = true ->
  sf_not_negative (SF64div x y) = true.
Proof.
  destruct x as [sx|sx| |sx mx ex], y as [sy|sy| |sy my ey];
    try destruct sx; try destruct sy;
    unfold SF64div, SFdiv; cbn [sf_not_negative sf_sign_clear xorb negb];
    try congruence; intros _ _.
  destruct (SFdiv_core_binary prec emax (Z.pos mx) ex (Z.pos my) ey)
    as [[mz ez] lz].
  apply round_aux_not_negative.
Qed.

Lemma sf_sqrt_not_negative (x : spec_float) :
  sf_not_negative (SF64sqrt x) = true.
Proof.
  destruct x as [sx|sx| |sx mx ex]; try destruct sx; try reflexivity.
  unfold SF64sqrt, SFsqrt.
  destruct (SFsqrt_core_binary prec emax (Z.pos mx) ex) as [[mz ez] lz].
  apply round_aux_not_negative.
Qed.

Lemma add_not_negative (x y : float) :
  not_negative x -> not_negative y -> not_negative (x + y)%float.
Proof.
  rewrite !not_negative_spec, FloatAxioms.add_spec.
  apply sf_add_not_negative.
Qed.

Lemma div_count_not_negative (x : float) (n : Z) :
  not_negative x -> not_negative (x / float_of_Z n)%float.
Proof.
  rewrite !not_negative_spec, FloatAxioms.div_spec. intros Hx.
  apply sf_div_not_negative; [exact Hx|].
  unfold float_of_Z. rewrite FloatAxioms.of_uint63_spec.
  apply normalize_sign_clear. apply Uint63.to_Z_bounded.
Qed.

Lemma sqrt_not_negative (x : float) : not_negative (PrimFloat.sqrt x).
Proof.
  rewrite not_negative_spec, FloatAxioms.sqrt_spec.
  apply sf_sqrt_not_negative.
Qed.

(** The reference reductions keep signs: a sum and a mean of numbers that
    are not negative are not negative, and a standard deviation never is. *)
Lemma fsum_not_negative (l : list float) :
  Forall not_negative l -> not_negative (NumpyRef.fsum l).
Proof.
  unfold NumpyRef.fsum.
  assert (H0 : not_negative 0%float) by reflexivity.
  revert H0. generalize 0%float as acc.
  induction l as [|x l IH]; intros acc Hacc Hl; [exact Hacc|].
  cbn [fold_left]. inversion Hl as [|? ? Hx Hl']; subst.
  apply IH; [|exact Hl']. now apply add_not_negative.
Qed.

Lemma mean_not_negative (l : list float) :
  Forall not_negative l -> not_negative (NumpyRef.mean l).
Proof.
  intros Hl. unfold NumpyRef.mean. apply div_count_not_negative.
  now apply fsum_not_negative.
Qed.

Lemma std_not_negative (l : list float) : not_negative (NumpyRef.std l).
Proof. unfold NumpyRef.std. apply sqrt_not_negative. Qed.

(** A float above zero has its sign bit clear. *)
Lemma pos_sign_clear (a : float) :
  (0 <? a)%float = true -> sf_sign_clear (Prim2SF a) = true.
Proof.
  rewrite FloatAxioms.ltb_spec, prim_zero.
  destruct (Prim2SF a) as [s|s| |s m e]; try destruct s; cbn; congruence.
Qed.

(** The rate computed from a mean interval is not negative. *)
Lemma rate_not_negative (avg_interval : float) :
  not_negative
    (if (0 <? avg_interval)%float then (1 / avg_interval)%float else 0%float).
Proof.
  destruct (0 <? avg_interval)%float eqn:H; [|reflexivity].
  rewrite not_negative_spec, FloatAxioms.div_spec.
  apply sf_div_not_negative; [reflexivity|]. now apply pos_sign_clear.
Qed.

(** ** Facts about slices *)

Lemma slice_last_app {A} (n : nat) (before lastn : list A) :
  length lastn = n -> slice_last n (before ++ lastn) = lastn.
Proof.
  intros Hn. unfold slice_last. rewrite length_app, Hn.
  replace (length before + n - n)%nat with (length before + 0)%nat by lia.
  rewrite skipn_app, Nat.add_0_r, skipn_all.
  replace (length before - length before)%nat with 0%nat by lia.
  reflexivity.
Qed.

Lemma slice_but_last_app {A} (n : nat) (before lastn : list A) :
  length lastn = n -> slice_but_last n (before ++ lastn) = before.
Proof.
  intros Hn. unfold slice_but_last. rewrite length_app, Hn.
  replace (length before + n - n)%nat with (length before) by lia.
  rewrite firstn_app, firstn_all, Nat.sub_diag. cbn. apply app_nil_r.
Qed.

(** A list of at least [n] elements splits into what precedes its last [n]
    elements and those. *)
Lemma split_last {A} (n : nat) (l : list A) :
  (n <= length l)%nat ->
  l = slice_but_last n l ++ slice_last n l /\ length (slice_last n l) = n.
Proof.
  intros Hn. unfold slice_but_last, slice_last. split.
  - symmetry. apply firstn_skipn.
  - rewrite length_skipn. lia.
Qed.

(** ** The service rate *)

(** The seconds field lies within a day. *)
Lemma td_seconds_range (delta : Z) : 0 <= td_seconds delta < 86400.
Proof.
  unfold td_seconds, us_per_day, us_per_second.
  pose proof (Z.mod_pos_bound delta (86400 * 1000000) ltac:(lia)) as Hm.
  split.
  - apply Z.div_pos; lia.
  - apply Z.div_lt_upper_bound; lia.
Qed.

(** For a difference of less than a day, not negative, the seconds field is
    the elapsed time in whole seconds. *)
Lemma td_seconds_elapsed (delta : Z) :
  0 <= delta < us_per_day -> td_seconds delta = delta / us_per_second.
Proof.
  intros H. unfold td_seconds. now rewrite Z.mod_small.
Qed.

Lemma consecutive_intervals_cons (t0 t1 : datetime) (rest : list datetime) :
  consecutive_intervals (t0 :: t1 :: rest)
  = interval_minutes t0 t1 :: consecutive_intervals (t1 :: rest).
Proof.
  unfold consecutive_intervals.
  replace (length (t0 :: t1 :: rest) - 1)%nat with (S (length rest))
    by (cbn [length]; lia).
  replace (length (t1 :: rest) - 1)%nat with (length rest)
    by (cbn [length]; lia).
  cbn [seq map nth]. f_equal.
  rewrite <- seq_shift, map_map. reflexivity.
Qed.

(** The loop of the source computes the intervals between neighbours. *)
Lemma intervals_by_index (timestamps : list datetime) :
  intervals timestamps = consecutive_intervals timestamps.
Proof.
  induction timestamps as [|t0 rest IH]; [reflexivity|].
  destruct rest as [|t1 rest]; [reflexivity|].
  rewrite consecutive_intervals_cons, <- IH. reflexivity.
Qed.

Lemma length_intervals (timestamps : list datetime) :
  length (intervals timestamps) = (length timestamps - 1)%nat.
Proof.
  rewrite intervals_by_index. unfold consecutive_intervals.
  now rewrite length_map, length_seq.
Qed.

(** What [calculate_service_rate] does on a window of at least two
    timestamps, in one equation. *)
Lemma calculate_service_rate_long (np_mean : list float -> float)
    (self : WaitTimeEstimator) (timestamps : list datetime) :
  (2 <= length timestamps)%nat ->
  let avg_interval := np_mean (intervals timestamps) in
  let current_rate :=
    if (0 <? avg_interval)%float then (1 / avg_interval)%float else 0%float in
  let history := service_rates self ++ [current_rate] in
  calculate_service_rate np_mean self timestamps
  = ((current_rate, classify_trend np_mean history),
     set_service_rates self history).
Proof.
  intros Hlen. unfold calculate_service_rate.
  apply Nat.ltb_ge in Hlen. rewrite Hlen. reflexivity.
Qed.

Lemma calculate_service_rate_short (np_mean : list float -> float)
    (self : WaitTimeEstimator) (timestamps : list datetime) :
  (length timestamps < 2)%nat ->
  calculate_service_rate np_mean self timestamps
  = ((0%float, "stable"%string), self).
Proof.
  intros Hlen. unfold calculate_service_rate.
  apply Nat.ltb_lt in Hlen. rewrite Hlen. reflexivity.
Qed.

(** The estimator only ever stores rates that are not negative. *)
Lemma calculate_service_rate_keeps_sign (np_mean : list float -> float)
    (self : WaitTimeEstimator) (timestamps : list datetime) :
  Forall not_negative (service_rates self) ->
  Forall not_negative
    (service_rates (snd (calculate_service_rate np_mean self timestamps))).
Proof.
  intros H. destruct (Nat.lt_ge_cases (length timestamps) 2) as [Hl|Hl].
  - now rewrite calculate_service_rate_short.
  - rewrite (calculate_service_rate_long _ _ _ Hl).
    cbn [snd set_service_rates service_rates].
    apply Forall_app. split; [exact H|].
    constructor; [apply rate_not_negative | constructor].
Qed.

Lemma all_from_spec (f : Z -> bool) (n : nat) :
  forall s,
    all_from f n s = true ->
    forall k, s <= k < s + Z.of_nat n -> f k = true.
Proof.
  induction n as [|n IH]; intros s H k Hk; [lia|].
  cbn [all_from] in H. destruct (f s) eqn:Hs; [|discriminate].
  destruct (Z.eq_dec k s) as [->|Hne]; [exact Hs|].
  apply (IH (s + 1) H). lia.
Qed.

(** Checked on each of the 86400 numbers of whole seconds under a day. *)
Lemma whole_seconds_agree :
  all_from
    (fun s => (float_of_Z (s * 1000000) / 1000000 / 60
               =? float_of_Z s / 60)%float)
    (Z.to_nat 86400) 0
  = true.
Proof. vm_compute. reflexivity. Qed.

(** Where the source's reading of a gap is the time elapsed: a gap of whole
    seconds, not negative and under a day. *)
Lemma interval_minutes_whole_seconds (t0 t1 : datetime) (s : Z) :
  0 <= s < 86400 -> t1 - t0 = s * us_per_second ->
  (elapsed_minutes t0 t1 =? interval_minutes t0 t1)%float = true.
Proof.
  intros Hs Hgap. unfold elapsed_minutes, interval_minutes, float_of_signed.
  rewrite Hgap. unfold us_per_second.
  replace (s * 1000000 <? 0) with false by (symmetry; apply Z.ltb_ge; lia).
  replace (td_seconds (s * 1000000)) with s.
  - apply (all_from_spec _ _ _ whole_seconds_agree). lia.
  - rewrite td_seconds_elapsed by (unfold us_per_day, us_per_second; lia).
    unfold us_per_second. now rewrite Z.div_mul by lia.
Qed.

(** C2.  The source computes the rate from the [.seconds] field of each gap
    and not from the time elapsed, so the rate it returns is not 1 divided
    by the mean inter-event interval.  Three completions half a second
    apart: every interval reads 0 and the rate returned is 0, where the
    specification gives 120 per minute.  Two completions a day and a minute
    apart: the rate returned is 1 per minute, where the specification gives
    less than 0.001.  The first three completions of a generated day, 249.6,
    384 and 633.6 seconds after the start: the rate returned is above
    0.3133, where the specification gives 0.3125. *)
Theorem calculate_service_rate_reads_seconds_field :
  let code_rate window :=
    fst (fst (calculate_service_rate NumpyRef.mean (new_estimator 10)
                window)) in
  code_rate half_second_window = 0%float
  /\ rate_policy NumpyRef.mean half_second_window = 120%float
  /\ code_rate overnight_window = 1%float
  /\ (rate_policy NumpyRef.mean overnight_window <? 0.001)%float = true
  /\ firstn 3 day_stream = [249600000; 384000000; 633600000]
  /\ rate_policy NumpyRef.mean (firstn 3 day_stream) = 0.3125%float
  /\ (0.3133 <? code_rate (firstn 3 day_stream))%float = true.
Proof. vm_compute. repeat split. Qed.

(** ** The rate history *)

(** C3, as stated, fails: a call on a window of fewer than 2 timestamps
    returns before the append, so the history does not grow. *)
Lemma short_window_leaves_history :
  length (service_rates
            (snd (calculate_service_rate NumpyRef.mean (new_estimator 10)
                    short_window)))
  <> S (length (service_rates (new_estimator 10))).
Proof. discriminate. Qed.

(** C3, amended.  A call on a window of at least 2 timestamps appends the
    rate it returns to the history, which becomes exactly one element longer
    and is otherwise unchanged; a call on a shorter window leaves the
    estimator as it was. *)
Theorem calculate_service_rate_history :
  forall np_mean self timestamps,
    let result := calculate_service_rate np_mean self timestamps in
    ((2 <= length timestamps)%nat ->
     service_rates (snd result)
     = service_rates self ++ [fst (fst result)]
     /\ length (service_rates (snd result)) = S (length (service_rates self)))
    /\ ((length timestamps < 2)%nat -> snd result = self).
Proof.
  intros np_mean self timestamps result. subst result. split.
  - intros Hlen. rewrite (calculate_service_rate_long _ _ _ Hlen).
    cbn [fst snd set_service_rates service_rates]. split; [reflexivity|].
    rewrite length_app. cbn [length]. lia.
  - intros Hlen. now rewrite calculate_service_rate_short.
Qed.

Lemma calculate_service_rate_history_witness :
  (2 <= length sample_window)%nat
  /\ length (service_rates
               (snd (calculate_service_rate NumpyRef.mean warming_estimator
                       sample_window)))
     = 5%nat
  /\ (length short_window < 2)%nat
  /\ snd (calculate_service_rate NumpyRef.mean warming_estimator short_window)
     = warming_estimator.
Proof.
  assert (Hlen : (2 <= length sample_window)%nat) by (cbn; lia).
  assert (Hshort : (length short_window < 2)%nat) by (cbn; lia).
  split; [exact Hlen|]. split.
  - exact (proj2 (proj1 (calculate_service_rate_history NumpyRef.mean
                           warming_estimator sample_window) Hlen)).
  - split; [exact Hshort|].
    exact (proj2 (calculate_service_rate_history NumpyRef.mean
                    warming_estimator short_window) Hshort).
Defined.

(** ** The trend *)

(** The classification in the source, on a history split before its last
    three samples, is the policy of the specification. *)
Lemma classify_trend_split (np_mean : list float -> float)
    (before last3 : list float) :
  length last3 = 3%nat ->
  classify_trend np_mean (before ++ last3) = trend_policy np_mean before last3.
Proof.
  intros H3. unfold classify_trend, trend_policy.
  rewrite slice_last_app, slice_but_last_app by assumption.
  rewrite length_app, H3.
  replace (length before + 3 <? 3)%nat with false
    by (symmetry; apply Nat.ltb_ge; lia).
  destruct before as [|x before']; [reflexivity|].
  replace (3 <? length (x :: before') + 3)%nat with true
    by (symmetry; apply Nat.ltb_lt; cbn [length]; lia).
  reflexivity.
Qed.

(** C4.  For a window of at least 2 timestamps, with [history] the rate
    history after the current rate has been appended: fewer than 3 samples
    give "stable"; otherwise the history splits into its last 3 samples and
    those before them, and the trend is the policy applied to that split
    (recent against historical mean, historical being recent when nothing
    precedes the last 3, thresholds 1.1 and 0.9). *)
Theorem calculate_service_rate_trend :
  forall np_mean self timestamps,
    (2 <= length timestamps)%nat ->
    let result := calculate_service_rate np_mean self timestamps in
    let trend := snd (fst result) in
    let history := service_rates (snd result) in
    history = service_rates self ++ [fst (fst result)]
    /\ ((length history < 3)%nat -> trend = "stable"%string)
    /\ ((3 <= length history)%nat ->
        exists before last3,
          history = before ++ last3 /\ length last3 = 3%nat
          /\ (length history < 4 <-> before = [])%nat)
    /\ (forall before last3,
          history = before ++ last3 -> length last3 = 3%nat ->
          trend = trend_policy np_mean before last3).
Proof.
  intros np_mean self timestamps Hlen result trend history.
  subst result trend history.
  rewrite (calculate_service_rate_long _ _ _ Hlen).
  cbn [fst snd set_service_rates service_rates].
  set (history := service_rates self ++ _).
  split; [reflexivity|]. split; [|split].
  - intros H. unfold classify_trend.
    apply Nat.ltb_lt in H. now rewrite H.
  - intros H. destruct (split_last 3 history H) as [Hsplit H3].
    exists (slice_but_last 3 history), (slice_last 3 history).
    split; [exact Hsplit|]. split; [exact H3|].
    assert (Hl : length history
                 = (length (slice_but_last 3 history) + 3)%nat)
      by (rewrite Hsplit at 1; rewrite length_app, H3; reflexivity).
    split.
    + intros H4. apply length_zero_iff_nil. lia.
    + intros Hnil. rewrite Hnil in Hl. cbn in Hl. lia.
  - intros before last3 Hsplit H3. rewrite Hsplit.
    now apply classify_trend_split.
Qed.

(** Two samples of 0.1 and two of 0.2, then a window at 0.2 per minute: the
    recent mean exceeds 1.1 times the historical one. *)
Lemma calculate_service_rate_trend_witness :
  (2 <= length sample_window)%nat
  /\ snd (fst (calculate_service_rate NumpyRef.mean warming_estimator
                 sample_window))
     = trend_policy NumpyRef.mean [0.1; 0.1]%float [0.2; 0.2; (1 / 5)]%float
  /\ trend_policy NumpyRef.mean [0.1; 0.1]%float [0.2; 0.2; (1 / 5)]%float
     = "speeding_up"%string.
Proof.
  assert (Hlen : (2 <= length sample_window)%nat) by (cbn; lia).
  split; [exact Hlen|]. split; [|reflexivity].
  apply (proj2 (proj2 (proj2 (calculate_service_rate_trend NumpyRef.mean
                                warming_estimator sample_window Hlen)))).
  - reflexivity.
  - reflexivity.
Defined.

(** ** The wait estimate *)

(** C1.  For a service rate above zero and each trend the specification
    tabulates, with multiplier [m], the estimated wait is [(5 * m) / rate];
    in particular a rate of 0.5 with a slowing trend gives an adjusted queue
    length of 7.5 and a wait of 15.0 minutes. *)
Theorem estimate_wait_time_formula :
  forall np_std self rate trend m,
    (0 <? rate)%float = true ->
    trend_multiplier trend = Some m ->
    fst (fst (estimate_wait_time np_std self rate trend))
      = (5 * m / rate)%float
    /\ adjusted_queue_length "slowing_down" = 7.5%float
    /\ fst (fst (estimate_wait_time np_std self 0.5 "slowing_down"))
       = 15.0%float.
Proof.
  intros np_std self rate trend m Hpos Hm. split; [|split; reflexivity].
  unfold estimate_wait_time. rewrite (float_pos_neq_zero _ Hpos). cbn [fst].
  unfold trend_multiplier in Hm. unfold adjusted_queue_length.
  destruct (String.eqb trend "slowing_down").
  - injection Hm as <-. reflexivity.
  - destruct (String.eqb trend "speeding_up").
    + injection Hm as <-. reflexivity.
    + destruct (String.eqb trend "stable"); [|discriminate].
      injection Hm as <-. reflexivity.
Qed.

Lemma estimate_wait_time_formula_witness :
  (0 <? 0.5)%float = true
  /\ trend_multiplier "slowing_down" = Some 1.5%float
  /\ fst (fst (estimate_wait_time NumpyRef.std (new_estimator 10) 0.5
                 "slowing_down")) = (5 * 1.5 / 0.5)%float.
Proof.
  split; [reflexivity|]. split; [reflexivity|].
  apply (estimate_wait_time_formula NumpyRef.std (new_estimator 10) 0.5%float
           "slowing_down" 1.5%float); reflexivity.
Defined.

(** C5.  With a service rate equal to zero the estimate is [(0, "Low")],
    whatever the trend and whatever the rate history holds. *)
Theorem estimate_wait_time_zero_rate :
  forall np_std self rate trend,
    (rate =? 0)%float = true ->
    fst (estimate_wait_time np_std self rate trend) = (0%float, "Low"%string).
Proof.
  intros np_std self rate trend H. unfold estimate_wait_time.
  rewrite H. reflexivity.
Qed.

Lemma estimate_wait_time_zero_rate_witness :
  (0 =? 0)%float = true
  /\ fst (estimate_wait_time NumpyRef.std steady_estimator 0 "speeding_up")
     = (0%float, "Low"%string).
Proof.
  split; [reflexivity|].
  apply (estimate_wait_time_zero_rate NumpyRef.std steady_estimator 0%float
           "speeding_up").
  reflexivity.
Defined.

(** ** The confidence label *)

(** C6.  The confidence is never "High" while the history holds fewer than 5
    samples.  For a rate above zero: it is "Low" iff the history holds fewer
    than 5 samples; "High" iff the history ends in five samples whose
    standard deviation is below 0.1; "Medium" iff it ends in five samples
    whose standard deviation is not below 0.1; so five last samples of
    deviation 0 give "High".  The last five samples are named by a split of
    the history, [history = before ++ last5]. *)
Theorem estimate_wait_time_confidence :
  forall np_std self rate trend,
    let history := service_rates self in
    let confidence := snd (fst (estimate_wait_time np_std self rate trend)) in
    ((length history < 5)%nat -> confidence <> "High"%string)
    /\ ((0 <? rate)%float = true ->
        (confidence = "Low"%string <-> (length history < 5)%nat)
        /\ (confidence = "High"%string <->
            exists last5,
              last_five history last5 /\ (np_std last5 <? 0.1)%float = true)
        /\ (confidence = "Medium"%string <->
            exists last5,
              last_five history last5 /\ (np_std last5 <? 0.1)%float = false)
        /\ (forall last5,
              last_five history last5 -> np_std last5 = 0%float ->
              confidence = "High"%string)).
Proof.
  intros np_std self rate trend history confidence.
  subst history confidence. unfold estimate_wait_time. split.
  - intros Hlen. destruct (rate =? 0)%float; cbn [fst snd].
    + discriminate.
    + apply Nat.ltb_lt in Hlen. rewrite Hlen. discriminate.
  - intros Hpos. rewrite (float_pos_neq_zero _ Hpos). cbn [fst snd].
    assert (Hsplit : forall last5,
               last_five (service_rates self) last5 ->
               (5 <= length (service_rates self))%nat
               /\ slice_last 5 (service_rates self) = last5).
    { intros last5 (before & Heq & H5). rewrite Heq. split.
      - rewrite length_app. lia.
      - now apply slice_last_app. }
    destruct (length (service_rates self) <? 5)%nat eqn:Hlen.
    + apply Nat.ltb_lt in Hlen.
      split; [split; [intros _; exact Hlen | reflexivity]|].
      split; [split; [discriminate|]|].
      { intros (last5 & Hl & _). apply Hsplit in Hl. lia. }
      split; [split; [discriminate|]|].
      { intros (last5 & Hl & _). apply Hsplit in Hl. lia. }
      intros last5 Hl _. apply Hsplit in Hl. lia.
    + apply Nat.ltb_ge in Hlen.
      assert (Hlast : last_five (service_rates self)
                        (slice_last 5 (service_rates self))).
      { exists (slice_but_last 5 (service_rates self)).
        apply split_last. exact Hlen. }
      destruct (np_std (slice_last 5 (service_rates self)) <? 0.1)%float
        eqn:Hd.
      * split; [split; [discriminate | intros H5; lia]|].
        split; [split; [intros _; eexists; split; [exact Hlast | exact Hd]
                       | reflexivity]|].
        split; [split; [discriminate|]|].
        { intros (last5 & Hl & Hf). apply Hsplit in Hl.
          destruct Hl as [_ <-]. congruence. }
        reflexivity.
      * split; [split; [discriminate | intros H5; lia]|].
        split; [split; [discriminate|]|].
        { intros (last5 & Hl & Hf). apply Hsplit in Hl.
          destruct Hl as [_ <-]. congruence. }
        split; [split; [intros _; eexists; split; [exact Hlast | exact Hd]
                       | reflexivity]|].
        intros last5 Hl Hz. apply Hsplit in Hl. destruct Hl as [_ <-].
        rewrite Hz in Hd. discriminate.
Qed.

(** Five samples of 0.5 after none: deviation 0, confidence "High". *)
Lemma estimate_wait_time_confidence_witness :
  (0 <? 0.5)%float = true
  /\ last_five (service_rates steady_estimator) [0.5; 0.5; 0.5; 0.5; 0.5]%float
  /\ NumpyRef.std [0.5; 0.5; 0.5; 0.5; 0.5]%float = 0%float
  /\ snd (fst (estimate_wait_time NumpyRef.std steady_estimator 0.5 "stable"))
     = "High"%string.
Proof.
  assert (Hpos : (0 <? 0.5)%float = true) by reflexivity.
  assert (Hlast : last_five (service_rates steady_estimator)
                    [0.5; 0.5; 0.5; 0.5; 0.5]%float)
    by (exists []; split; reflexivity).
  assert (Hdev : NumpyRef.std [0.5; 0.5; 0.5; 0.5; 0.5]%float = 0%float)
    by reflexivity.
  split; [exact Hpos|]. split; [exact Hlast|]. split; [exact Hdev|].
  exact (proj2 (proj2 (proj2
           (proj2 (estimate_wait_time_confidence NumpyRef.std steady_estimator
                     0.5%float "stable") Hpos))) _ Hlast Hdev).
Defined.

(** ** Anomaly detection: the insufficient-data guard *)

(** C7.  A rate history of fewer than 5 samples never yields an anomaly. *)
Theorem detect_anomalies_insufficient_data :
  forall np_mean np_std self rates,
    (length rates < 5)%nat ->
    fst (detect_anomalies np_mean np_std self rates) = None.
Proof.
  intros np_mean np_std self rates Hlen. unfold detect_anomalies.
  apply Nat.ltb_lt in Hlen. rewrite Hlen. reflexivity.
Qed.

Lemma detect_anomalies_insufficient_data_witness :
  (length [4; 1; 1; 1]%float < 5)%nat
  /\ fst (detect_anomalies NumpyRef.mean NumpyRef.std (new_estimator 10)
            [4; 1; 1; 1]%float) = None.
Proof.
  split; [cbn; lia|].
  apply (detect_anomalies_insufficient_data NumpyRef.mean NumpyRef.std
           (new_estimator 10) [4; 1; 1; 1]%float).
  cbn; lia.
Defined.

(** ** Anomaly detection: recent against historical *)

(** [detect_anomalies] on a history split before its last five samples. *)
Lemma detect_anomalies_split (np_mean np_std : list float -> float)
    (self : WaitTimeEstimator) (before recent : list float) :
  length recent = 5%nat ->
  fst (detect_anomalies np_mean np_std self (before ++ recent))
  = anomaly_rule np_mean np_std before recent.
Proof.
  intros H5. unfold detect_anomalies, anomaly_rule.
  rewrite length_app, H5.
  replace (length before + 5 <? 5)%nat with false
    by (symmetry; apply Nat.ltb_ge; lia).
  rewrite slice_last_app by assumption.
  destruct before as [|x [|y before']].
  - cbn [app length Nat.ltb Nat.leb Nat.add]. rewrite H5.
    cbn [Nat.ltb Nat.leb].
    repeat match goal with
           | |- context [if ?b then _ else _] => destruct b
           end; reflexivity.
  - replace (5 <? length [x] + 5)%nat with true by reflexivity.
    rewrite slice_but_last_app by assumption.
    cbn [length Nat.ltb Nat.leb].
    repeat match goal with
           | |- context [if ?b then _ else _] => destruct b
           end; reflexivity.
  - replace (5 <? length (x :: y :: before') + 5)%nat with true
      by (symmetry; apply Nat.ltb_lt; cbn [length]; lia).
    rewrite slice_but_last_app by assumption.
    cbn [length Nat.ltb Nat.leb].
    repeat match goal with
           | |- context [if ?b then _ else _] => destruct b
           end; reflexivity.
Qed.

(** C8, as stated, fails: in a history of 6 samples the one sample before
    the last five is the historical mean, and five samples at a quarter of
    its rate are reported as a major slowdown. *)
Lemma single_older_sample_is_compared :
  length slowed_history = 6%nat
  /\ fst (detect_anomalies NumpyRef.mean NumpyRef.std (new_estimator 10)
            slowed_history) <> None.
Proof. split; [reflexivity | discriminate]. Qed.

(** The rule on a split with nothing before the last five samples compares
    [recent] with itself and reports nothing. *)
Lemma anomaly_rule_self_comparison (np_mean np_std : list float -> float)
    (recent : list float) :
  not_negative (np_std recent) -> not_negative (np_mean recent) ->
  anomaly_rule np_mean np_std [] recent = None.
Proof.
  intros Hstd Hmean. unfold anomaly_rule.
  rewrite (float_double_not_below _ Hstd).
  rewrite (float_half_not_above _ Hmean). reflexivity.
Qed.

(** With fewer than two samples before the last five, the deviation of
    [recent] is compared with itself and the variability rule is silent. *)
Lemma anomaly_rule_no_variability (np_mean np_std : list float -> float)
    (before recent : list float) :
  (length before < 2)%nat -> not_negative (np_std recent) ->
  anomaly_rule np_mean np_std before recent <> Some high_variability.
Proof.
  intros Hlen Hstd. unfold anomaly_rule.
  destruct before as [|x [|y before']]; [| |cbn [length] in Hlen; lia];
    rewrite (float_double_not_below _ Hstd);
    match goal with
    | |- context [if ?b then _ else _] => destruct b
    end; discriminate.
Qed.

(** C8, amended.  With at least 5 samples the last 5 form [recent] and the
    earlier ones [historical].  When there is no earlier sample, historical
    is replaced by recent; when there are fewer than 2 earlier samples, the
    historical standard deviation is replaced by the recent one.  The full
    self-comparison reports nothing: a history of exactly 5 samples whose
    mean is not negative yields no anomaly.  With fewer than 2 earlier
    samples (5 or 6 in all) the variability anomaly is never reported.
    (A standard deviation is not negative; the statement assumes as much of
    the one computed on [recent].) *)
Theorem detect_anomalies_self_comparison :
  forall np_mean np_std self rates before recent,
    rates = before ++ recent ->
    length recent = 5%nat ->
    not_negative (np_std recent) ->
    let result := fst (detect_anomalies np_mean np_std self rates) in
    result = anomaly_rule np_mean np_std before recent
    /\ (length rates = 5%nat -> not_negative (np_mean recent) ->
        result = None)
    /\ ((length rates <= 6)%nat -> result <> Some high_variability).
Proof.
  intros np_mean np_std self rates before recent -> H5 Hstd result.
  subst result. rewrite detect_anomalies_split by assumption.
  split; [reflexivity|]. split.
  - intros Hlen Hmean. rewrite length_app, H5 in Hlen.
    assert (Hnil : before = []) by (apply length_zero_iff_nil; lia).
    subst before. now apply anomaly_rule_self_comparison.
  - intros Hlen. rewrite length_app, H5 in Hlen.
    apply anomaly_rule_no_variability; [lia | exact Hstd].
Qed.

Lemma detect_anomalies_self_comparison_witness :
  service_rates steady_estimator = [] ++ service_rates steady_estimator
  /\ length (service_rates steady_estimator) = 5%nat
  /\ not_negative (NumpyRef.std (service_rates steady_estimator))
  /\ not_negative (NumpyRef.mean (service_rates steady_estimator))
  /\ fst (detect_anomalies NumpyRef.mean NumpyRef.std steady_estimator
            (service_rates steady_estimator)) = None.
Proof.
  assert (Hsplit : service_rates steady_estimator
                   = [] ++ service_rates steady_estimator) by reflexivity.
  assert (H5 : length (service_rates steady_estimator) = 5%nat)
    by reflexivity.
  assert (Hstd : not_negative (NumpyRef.std (service_rates steady_estimator)))
    by reflexivity.
  assert (Hmean : not_negative
                    (NumpyRef.mean (service_rates steady_estimator)))
    by reflexivity.
  split; [exact Hsplit|]. split; [exact H5|]. split; [exact Hstd|].
  split; [exact Hmean|].
  exact (proj1 (proj2 (detect_anomalies_self_comparison NumpyRef.mean
                         NumpyRef.std steady_estimator
                         (service_rates steady_estimator) []
                         (service_rates steady_estimator) Hsplit H5 Hstd))
           H5 Hmean).
Defined.

(** With the reference reductions no assumption on them is left: every
    history of exactly five rates, none of them negative, yields no
    anomaly. *)
Lemma detect_anomalies_five_samples (self : WaitTimeEstimator)
    (rates : list float) :
  length rates = 5%nat -> Forall not_negative rates ->
  fst (detect_anomalies NumpyRef.mean NumpyRef.std self rates) = None.
Proof.
  intros H5 Hpos.
  change rates with ([] ++ rates).
  rewrite detect_anomalies_split by assumption.
  apply anomaly_rule_self_comparison.
  - apply std_not_negative.
  - now apply mean_not_negative.
Qed.

(** With six samples the variability rule stays silent as well. *)
Lemma detect_anomalies_six_samples (self : WaitTimeEstimator)
    (rates : list float) :
  length rates = 6%nat ->
  fst (detect_anomalies NumpyRef.mean NumpyRef.std self rates)
  <> Some high_variability.
Proof.
  intros H6.
  destruct (split_last 5 rates) as [Hsplit H5]; [lia|].
  rewrite Hsplit, detect_anomalies_split by assumption.
  apply anomaly_rule_no_variability.
  - unfold slice_but_last. rewrite length_firstn. lia.
  - apply std_not_negative.
Qed.

(** ** The histories only grow *)

Lemma prefix_of_refl {A} (l : list A) : prefix_of l l.
Proof. exists []. now rewrite app_nil_r. Qed.

Lemma prefix_of_app {A} (l k : list A) : prefix_of l (l ++ k).
Proof. now exists k. Qed.

Lemma prefix_of_trans {A} (l1 l2 l3 : list A) :
  prefix_of l1 l2 -> prefix_of l2 l3 -> prefix_of l1 l3.
Proof.
  intros [k1 ->] [k2 ->]. exists (k1 ++ k2). now rewrite app_assoc.
Qed.

(** In a prefix every position keeps its element. *)
Lemma prefix_of_nth_error {A} (l1 l2 : list A) (i : nat) (x : A) :
  prefix_of l1 l2 -> nth_error l1 i = Some x -> nth_error l2 i = Some x.
Proof.
  intros [k ->] H. rewrite nth_error_app1; [exact H|].
  apply nth_error_Some. congruence.
Qed.

Lemma estimate_wait_time_pure (np_std : list float -> float)
    (self : WaitTimeEstimator) (rate : float) (trend : string) :
  snd (estimate_wait_time np_std self rate trend) = self.
Proof.
  unfold estimate_wait_time. now destruct (rate =? 0)%float.
Qed.

Lemma detect_anomalies_pure (np_mean np_std : list float -> float)
    (self : WaitTimeEstimator) (rates : list float) :
  snd (detect_anomalies np_mean np_std self rates) = self.
Proof.
  unfold detect_anomalies.
  destruct (length rates <? 5)%nat; [reflexivity|].
  repeat match goal with
         | |- context [if ?b then _ else _] => destruct b
         end; reflexivity.
Qed.

Lemma calculate_service_rate_grows (np_mean : list float -> float)
    (self : WaitTimeEstimator) (timestamps : list datetime) :
  let self' := snd (calculate_service_rate np_mean self timestamps) in
  prefix_of (service_rates self) (service_rates self')
  /\ predictions self' = predictions self.
Proof.
  cbn zeta. destruct (Nat.lt_ge_cases (length timestamps) 2) as [H|H].
  - rewrite calculate_service_rate_short by assumption.
    split; [apply prefix_of_refl | reflexivity].
  - rewrite (calculate_service_rate_long _ _ _ H).
    split; [apply prefix_of_app | reflexivity].
Qed.

(** What a single call does to the two histories. *)
Lemma after_call_grows (np_mean np_std : list float -> float)
    (self : WaitTimeEstimator) (c : call) :
  let self' := after_call np_mean np_std self c in
  prefix_of (service_rates self) (service_rates self')
  /\ predictions self' = predictions self
  /\ match c with
     | CalculateServiceRate _ => True
     | _ => service_rates self' = service_rates self
     end.
Proof.
  cbn zeta. destruct c as [ts|r t|rs]; cbn [after_call].
  - destruct (calculate_service_rate_grows np_mean self ts) as [H1 H2].
    auto.
  - rewrite estimate_wait_time_pure. auto using prefix_of_refl.
  - rewrite detect_anomalies_pure. auto using prefix_of_refl.
Qed.

(** C9.  After any single call of [calculate_service_rate],
    [estimate_wait_time] or [detect_anomalies], the earlier rate history and
    the earlier prediction history are initial segments of the new ones, so
    every stored element is still at its position; [estimate_wait_time] and
    [detect_anomalies] leave the rate history as it was. *)
Theorem histories_append_only :
  forall np_mean np_std self c,
    let self' := after_call np_mean np_std self c in
    prefix_of (service_rates self) (service_rates self')
    /\ prefix_of (predictions self) (predictions self')
    /\ (forall i x, nth_error (service_rates self) i = Some x ->
                    nth_error (service_rates self') i = Some x)
    /\ (forall i p, nth_error (predictions self) i = Some p ->
                    nth_error (predictions self') i = Some p)
    /\ match c with
       | CalculateServiceRate _ => True
       | _ => service_rates self' = service_rates self
       end.
Proof.
  intros np_mean np_std self c self'.
  destruct (after_call_grows np_mean np_std self c) as (Hr & Hp & Hc).
  fold self' in Hr, Hp, Hc.
  assert (Hp' : prefix_of (predictions self) (predictions self'))
    by (rewrite Hp; apply prefix_of_refl).
  split; [exact Hr|]. split; [exact Hp'|]. split; [|split].
  - intros i x. now apply prefix_of_nth_error.
  - intros i p. now apply prefix_of_nth_error.
  - exact Hc.
Qed.

(** The same over any sequence of calls. *)
Lemma after_calls_grow (np_mean np_std : list float -> float)
    (calls : list call) :
  forall self,
    prefix_of (service_rates self)
      (service_rates (after_calls np_mean np_std self calls))
    /\ predictions (after_calls np_mean np_std self calls) = predictions self.
Proof.
  induction calls as [|c calls IH]; intros self.
  - split; [apply prefix_of_refl | reflexivity].
  - cbn [after_calls fold_left].
    destruct (after_call_grows np_mean np_std self c) as (Hr & Hp & _).
    destruct (IH (after_call np_mean np_std self c)) as [Hr' Hp'].
    split.
    + eapply prefix_of_trans; eassumption.
    + unfold after_calls in Hp'. now rewrite Hp'.
Qed.

(** One iteration of the display loop only appends as well: the prediction
    history gains exactly the new prediction. *)
Lemma display_tick_append_only (np_mean np_std : list float -> float)
    (self : WaitTimeEstimator) (recent_timestamps : list datetime) :
  let self' := display_tick np_mean np_std self recent_timestamps in
  prefix_of (service_rates self) (service_rates self')
  /\ exists p, predictions self' = predictions self ++ [p].
Proof.
  cbn zeta. unfold display_tick.
  pose proof (calculate_service_rate_grows np_mean self recent_timestamps)
    as [Hr Hp].
  destruct (calculate_service_rate np_mean self recent_timestamps)
    as [[rate trend] s1]. cbn [snd] in Hr, Hp.
  pose proof (estimate_wait_time_pure np_std s1 rate trend) as He.
  destruct (estimate_wait_time np_std s1 rate trend) as [[wait conf] s2].
  cbn [snd] in He. subst s2.
  pose proof (detect_anomalies_pure np_mean np_std s1 (service_rates s1))
    as Hd.
  destruct (detect_anomalies np_mean np_std s1 (service_rates s1))
    as [anomaly s3].
  cbn [snd] in Hd. subst s3. cbn [set_predictions service_rates predictions].
  split; [exact Hr|]. exists (wait, conf). now rewrite Hp.
Qed.

(** ** The generated stream *)

Section GeneratorProperties.

Variable timedelta_minutes : float -> Z.
Variable complexity_draw : Z -> float.
Variable interruption_draw : Z -> float.

Lemma end_time_cons (t : datetime) (e : CompletionEvent)
    (rest : list CompletionEvent) :
  end_time t (e :: rest) = end_time (timestamp e) rest.
Proof.
  unfold end_time. cbn [map]. generalize (timestamp e) as a.
  generalize (map timestamp rest) as l.
  induction l as [|b l IH]; intros a; [reflexivity|].
  cbn [last] in *. destruct l; [reflexivity|]. apply IH.
Qed.

(** Appending an event to a chain. *)
Lemma chained_snoc (events : list CompletionEvent) (e : CompletionEvent) :
  forall t id,
    chained timedelta_minutes t id events ->
    customer_id e = id + Z.of_nat (length events) ->
    timestamp e
    = end_time t events + timedelta_minutes (actual_service_time e) ->
    chained timedelta_minutes t id (events ++ [e]).
Proof.
  induction events as [|e0 rest IH]; intros t id Hc Hid Ht.
  - cbn in *. repeat split; [lia | exact Ht].
  - cbn [app]. destruct Hc as (H1 & H2 & H3).
    cbn [chained]. repeat split; [exact H1 | exact H2 |].
    apply IH; [exact H3 | |].
    + cbn [length] in Hid. lia.
    + now rewrite end_time_cons in Ht.
Qed.

Lemma end_time_snoc (t : datetime) (events : list CompletionEvent)
    (e : CompletionEvent) :
  end_time t (events ++ [e]) = timestamp e.
Proof.
  unfold end_time. rewrite map_app. cbn [map]. apply last_last.
Qed.

Lemma serve_customer_invariant (start : datetime) (mult : float)
    (g : GenState) :
  stream_invariant timedelta_minutes start g ->
  stream_invariant timedelta_minutes start
    (serve_customer timedelta_minutes complexity_draw interruption_draw mult g).
Proof.
  intros (Hc & Hid & Ht). unfold stream_invariant, serve_customer.
  cbn [simulator service_completions next_customer_id current_time].
  repeat split.
  - apply chained_snoc; cbn [customer_id timestamp actual_service_time].
    + exact Hc.
    + lia.
    + now rewrite Ht.
  - rewrite length_app. cbn [length]. lia.
  - now rewrite end_time_snoc.
Qed.

Lemma serve_customers_invariant (start : datetime) (n : nat) (mult : float) :
  forall g,
    stream_invariant timedelta_minutes start g ->
    stream_invariant timedelta_minutes start
      (serve_customers timedelta_minutes complexity_draw interruption_draw n
         mult g).
Proof.
  induction n as [|n IH]; intros g Hg; [exact Hg|].
  cbn [serve_customers]. apply IH.
  now apply serve_customer_invariant.
Qed.

Lemma simulate_hours_invariant (start : datetime) (n : nat) :
  forall hour g,
    stream_invariant timedelta_minutes start g ->
    stream_invariant timedelta_minutes start
      (simulate_hours timedelta_minutes complexity_draw interruption_draw n
         hour g).
Proof.
  induction n as [|n IH]; intros hour g Hg; [exact Hg|].
  cbn [simulate_hours]. apply IH.
  unfold simulate_hour. destruct (regime hour) as [mult cph].
  now apply serve_customers_invariant.
Qed.

(** [l[-2]] of a list that ends with two known elements. *)
Lemma second_to_last_snoc {A} (l : list A) (x y : A) :
  second_to_last (l ++ [x; y]) = Some x.
Proof.
  unfold second_to_last. rewrite length_app. cbn [length].
  replace (length l + 2 <? 2)%nat with false
    by (symmetry; apply Nat.ltb_ge; lia).
  replace (length l + 2 - 2)%nat with (length l + 0)%nat by lia.
  now rewrite nth_error_app2, Nat.add_comm, Nat.add_sub by lia.
Qed.

(** Every customer after the first finds a previous event to measure its
    wait against: the lookup of [service_completions[-2]] never fails, and
    the validation sequence gains one entry. *)
Lemma serve_customer_waits (mult : float) (g : GenState) :
  waits_invariant g ->
  waits_invariant
    (serve_customer timedelta_minutes complexity_draw interruption_draw mult g).
Proof.
  intros [Hid Hw]. unfold waits_invariant, serve_customer.
  cbn [simulator service_completions actual_wait_times next_customer_id].
  rewrite length_app. cbn [length]. split; [lia|].
  destruct (1 <? next_customer_id g) eqn:Hfirst.
  - apply Z.ltb_lt in Hfirst.
    destruct (exists_last (l := service_completions (simulator g)))
      as (earlier & prev & Hsplit).
    { intros Hnil. rewrite Hnil in Hid. cbn in Hid. lia. }
    rewrite Hsplit at 1. rewrite <- app_assoc. cbn [app].
    rewrite second_to_last_snoc, length_app. cbn [length].
    rewrite Hw, Hsplit, length_app. cbn [length]. lia.
  - apply Z.ltb_ge in Hfirst.
    assert (Hnone : length (service_completions (simulator g)) = 0%nat)
      by lia.
    rewrite Hw, Hnone. reflexivity.
Qed.

Lemma serve_customers_waits (n : nat) (mult : float) :
  forall g,
    waits_invariant g ->
    waits_invariant
      (serve_customers timedelta_minutes complexity_draw interruption_draw n
         mult g).
Proof.
  induction n as [|n IH]; intros g Hg; [exact Hg|].
  cbn [serve_customers]. apply IH. now apply serve_customer_waits.
Qed.

Lemma simulate_hours_waits (n : nat) :
  forall hour g,
    waits_invariant g ->
    waits_invariant
      (simulate_hours timedelta_minutes complexity_draw interruption_draw n
         hour g).
Proof.
  induction n as [|n IH]; intros hour g Hg; [exact Hg|].
  cbn [simulate_hours]. apply IH.
  unfold simulate_hour. destruct (regime hour) as [mult cph].
  now apply serve_customers_waits.
Qed.

(** On a fresh simulator the validation sequence has one wait per event but
    the first. *)
Lemma generate_synthetic_data_waits (start : datetime) (hours : Z)
    (base : float) :
  let result :=
    generate_synthetic_data timedelta_minutes complexity_draw
      interruption_draw start (new_simulator hours base) in
  length (actual_wait_times (snd result)) = (length (fst result) - 1)%nat.
Proof.
  cbn zeta. unfold generate_synthetic_data. cbn [fst snd].
  set (g := simulate_hours _ _ _ _ _ _).
  assert (Hinv : waits_invariant g).
  { apply simulate_hours_waits. split; reflexivity. }
  exact (proj2 Hinv).
Qed.

(** A chain that starts at id [k] carries the ids [k, k+1, ...]. *)
Lemma chained_ids (events : list CompletionEvent) :
  forall t k,
    chained timedelta_minutes t (Z.of_nat k) events ->
    map customer_id events = map Z.of_nat (seq k (length events)).
Proof.
  induction events as [|e rest IH]; intros t k Hc; [reflexivity|].
  destruct Hc as (H1 & _ & H3). cbn [map length seq]. f_equal; [exact H1|].
  apply (IH (timestamp e)).
  replace (Z.of_nat (S k)) with (Z.of_nat k + 1) by lia. exact H3.
Qed.

(** In a chain whose steps all advance the clock, every timestamp is after
    the starting instant. *)
Lemma chained_after_start (events : list CompletionEvent) :
  forall t id,
    chained timedelta_minutes t id events ->
    (forall e, In e events -> 0 < timedelta_minutes (actual_service_time e)) ->
    forall x, In x (map timestamp events) -> t < x.
Proof.
  induction events as [|e rest IH]; intros t id Hc Hpos x Hx; [contradiction|].
  destruct Hc as (_ & H2 & H3). cbn [map] in Hx.
  assert (He : t < timestamp e).
  { specialize (Hpos e (or_introl eq_refl)). lia. }
  destruct Hx as [<-|Hx]; [exact He|].
  assert (timestamp e < x); [|lia].
  apply (IH _ _ H3); [|exact Hx].
  intros e' He'. apply Hpos. now right.
Qed.

Lemma chained_increasing (events : list CompletionEvent) :
  forall t id,
    chained timedelta_minutes t id events ->
    (forall e, In e events -> 0 < timedelta_minutes (actual_service_time e)) ->
    strictly_increasing (map timestamp events).
Proof.
  induction events as [|e rest IH]; intros t id Hc Hpos i j x y Hij Hi Hj.
  - destruct i; discriminate.
  - destruct j as [|j]; [lia|]. cbn [map nth_error] in Hj.
    assert (Hrest : forall e', In e' rest ->
              0 < timedelta_minutes (actual_service_time e'))
      by (intros e' He'; apply Hpos; now right).
    destruct Hc as (_ & _ & H3).
    destruct i as [|i].
    + cbn in Hi. injection Hi as <-.
      apply (chained_after_start rest _ _ H3 Hrest).
      eapply nth_error_In; eassumption.
    + cbn [map nth_error] in Hi.
      apply (IH _ _ H3 Hrest i j); [lia | assumption | assumption].
Qed.

(** C10, amended.  Whatever the horizon, the base service duration and the
    draws, the events produced by a fresh simulator carry the ids 1, 2,
    ..., n in order, and each timestamp is the previous one (the start
    time for the first) advanced by the event's own service time; the
    timestamps are strictly increasing provided every event's service time
    amounts to a positive number of microseconds. *)
Theorem generate_synthetic_data_stream :
  forall start hours base,
    let events :=
      fst (generate_synthetic_data timedelta_minutes complexity_draw
             interruption_draw start (new_simulator hours base)) in
    map customer_id events = ids_from_one (length events)
    /\ chained timedelta_minutes start 1 events
    /\ ((forall e, In e events ->
           0 < timedelta_minutes (actual_service_time e)) ->
        strictly_increasing (map timestamp events)).
Proof.
  intros start hours base events. subst events.
  unfold generate_synthetic_data. cbn [fst].
  set (g := simulate_hours _ _ _ _ _ _).
  assert (Hinv : stream_invariant timedelta_minutes start g).
  { apply simulate_hours_invariant. repeat split. }
  destruct Hinv as (Hc & _ & _).
  split; [|split].
  - exact (chained_ids _ start 1%nat Hc).
  - exact Hc.
  - intros Hpos. exact (chained_increasing _ _ _ Hc Hpos).
Qed.

End GeneratorProperties.

(** A check that can be run implies the hypothesis on the service times. *)
Lemma all_advance_by_check (timedelta_minutes : float -> Z)
    (events : list CompletionEvent) :
  forallb (fun e => 0 <? timedelta_minutes (actual_service_time e)) events
  = true ->
  forall e, In e events -> 0 < timedelta_minutes (actual_service_time e).
Proof.
  intros H e He. rewrite forallb_forall in H. apply Z.ltb_lt. now apply H.
Qed.

(** A full day of 8 hours at a base duration of 4 minutes. *)
Lemma generate_synthetic_data_stream_witness :
  (forall e,
     In e (fst (generate_synthetic_data TimedeltaRef.minutes
                  alternating_complexity occasional_interruption 0
                  (new_simulator 8 4))) ->
     0 < TimedeltaRef.minutes (actual_service_time e))
  /\ strictly_increasing
       (map timestamp
          (fst (generate_synthetic_data TimedeltaRef.minutes
                  alternating_complexity occasional_interruption 0
                  (new_simulator 8 4)))).
Proof.
  assert (Hpos : forall e,
             In e (fst (generate_synthetic_data TimedeltaRef.minutes
                          alternating_complexity occasional_interruption 0
                          (new_simulator 8 4))) ->
             0 < TimedeltaRef.minutes (actual_service_time e)).
  { apply all_advance_by_check. vm_compute. reflexivity. }
  split; [exact Hpos|].
  exact (proj2 (proj2 (generate_synthetic_data_stream TimedeltaRef.minutes
                         alternating_complexity occasional_interruption
                         0 8 4%float)) Hpos).
Defined.

(** C10, as stated, fails: with a base service duration of 0 and no
    interruption the clock never advances, so all timestamps coincide. *)
Lemma zero_base_duration_repeats_timestamps :
  ~ strictly_increasing
      (map timestamp
         (fst (generate_synthetic_data TimedeltaRef.minutes unit_complexity
                 no_interruption 0 (new_simulator 1 0)))).
Proof.
  intros H.
  assert (Habs : 0 < 0).
  { apply (H 0%nat 1%nat); [lia | vm_compute; reflexivity
                            | vm_compute; reflexivity]. }
  lia.
Qed.

(** The simulator keeps its events between runs while the ids start over, so
    the statement above is about a fresh simulator: a second run returns the
    ids 1 to 15 twice. *)
Lemma second_run_restarts_ids :
  map customer_id
    (fst (generate_synthetic_data TimedeltaRef.minutes unit_complexity
            no_interruption 3600000000 used_simulator))
  = ids_from_one 15 ++ ids_from_one 15.
Proof. vm_compute. reflexivity. Qed.

(* ================================================================== *)
(** * Part IV: further properties *)
(* ================================================================== *)

(** ** Rounding never leaves the numbers at least zero

    A quotient of two binary64 numbers that are at least zero is rounded
    from a quotient of mantissas that is not negative, so it is at least
    zero too and in particular a number. *)

Lemma at_least_zero_spec (x : float) :
  at_least_zero x <-> sf_at_least_zero (Prim2SF x) = true.
Proof.
  unfold at_least_zero. rewrite FloatAxioms.leb_spec, prim_zero.
  destruct (Prim2SF x) as [s|s| |s m e]; try destruct s; cbn;
    split; congruence.
Qed.

Lemma above_zero_spec (x : float) :
  (0 <? x)%float = true <-> sf_above_zero (Prim2SF x) = true.
Proof.
  rewrite FloatAxioms.ltb_spec, prim_zero.
  destruct (Prim2SF x) as [s|s| |s m e]; try destruct s; cbn;
    split; congruence.
Qed.

Lemma nonzero_above_zero (x : float) :
  at_least_zero x -> (x =? 0)%float = false -> (0 <? x)%float = true.
Proof.
  unfold at_least_zero.
  rewrite FloatAxioms.leb_spec, FloatAxioms.eqb_spec, FloatAxioms.ltb_spec,
    prim_zero.
  destruct (Prim2SF x) as [s|s| |s m e]; try destruct s; cbn; congruence.
Qed.

Lemma shr_1_keeps_sign (mrs : shr_record) :
  0 <= shr_m mrs -> 0 <= shr_m (shr_1 mrs).
Proof.
  destruct mrs as [m r s]. cbn [shr_m].
  destruct m as [|p|p]; [cbn; lia | | lia].
  intros _. destruct p; cbn; lia.
Qed.

Lemma iter_shr_keeps_sign (p : positive) :
  forall mrs, 0 <= shr_m mrs -> 0 <= shr_m (iter_pos shr_1 p mrs).
Proof.
  induction p as [p IH|p IH|]; intros mrs H; cbn [iter_pos].
  - apply IH, IH, shr_1_keeps_sign, H.
  - apply IH, IH, H.
  - apply shr_1_keeps_sign, H.
Qed.

Lemma shr_fexp_keeps_sign (m e : Z) (l : location) :
  0 <= m -> 0 <= shr_m (fst (shr_fexp prec emax m e l)).
Proof.
  intros Hm. unfold shr_fexp, shr.
  assert (H0 : 0 <= shr_m (shr_record_of_loc m l)).
  { destruct l as [|[]]; cbn; exact Hm. }
  destruct (fexp prec emax (Zdigits2 m + e) - e) as [|p|p]; cbn [fst];
    [exact H0 | | exact H0].
  now apply iter_shr_keeps_sign.
Qed.

Lemma round_nearest_even_keeps_sign (m : Z) (l : location) :
  0 <= m -> 0 <= round_nearest_even m l.
Proof.
  intros Hm. unfold round_nearest_even.
  destruct l as [|[]]; try lia. destruct (IntDef.Z.even m); lia.
Qed.

Lemma round_aux_at_least_zero (m e : Z) (l : location) :
  0 <= m -> sf_at_least_zero (binary_round_aux prec emax false m e l) = true.
Proof.
  intros Hm. unfold binary_round_aux.
  pose proof (shr_fexp_keeps_sign m e l Hm) as H1.
  destruct (shr_fexp prec emax m e l) as [mrs' e']. cbn [fst] in H1.
  pose proof (shr_fexp_keeps_sign _ e' loc_Exact
                (round_nearest_even_keeps_sign _ (loc_of_shr_record mrs') H1))
    as H2.
  destruct (shr_fexp prec emax _ e' loc_Exact) as [mrs'' e'']. cbn [fst] in H2.
  destruct (shr_m mrs'') as [|p|p]; [reflexivity | | lia].
  destruct (e'' <=? emax - prec); reflexivity.
Qed.

Lemma div_core_quotient (m1 : positive) (e1 : Z) (m2 : positive) (e2 : Z) :
  0 <= fst (fst (SFdiv_core_binary prec emax (Z.pos m1) e1 (Z.pos m2) e2)).
Proof.
  unfold SFdiv_core_binary.
  set (e' := IntDef.Z.min _ _). set (s := e1 - e2 - e').
  set (m' := match s with
             | 0 => Z.pos m1
             | Z.pos _ => IntDef.Z.shiftl (Z.pos m1) s
             | Z.neg _ => 0
             end).
  assert (Hm' : 0 <= m').
  { subst m'. destruct s as [|p|p]; try lia.
    change (IntDef.Z.shiftl (Z.pos m1) (Z.pos p))
      with (Z.shiftl (Z.pos m1) (Z.pos p)).
    apply Z.shiftl_nonneg. lia. }
  pose proof (Z.div_eucl_eq m' (Z.pos m2) ltac:(lia)) as Heq.
  pose proof (Z.mod_pos_bound m' (Z.pos m2) ltac:(lia)) as Hmod.
  unfold Z.modulo in Hmod.
  change (IntDef.Z.div_eucl m' (Z.pos m2)) with (Z.div_eucl m' (Z.pos m2)).
  destruct (Z.div_eucl m' (Z.pos m2)) as [q r]. cbn [fst]. nia.
Qed.

(** A quotient of a number that is at least zero by a finite number above
    zero is at least zero; so is a quotient of a finite one by any number
    above zero. *)
Lemma sf_div_at_least_zero (x y : spec_float) :
  sf_at_least_zero x = true -> sf_above_zero y = true ->
  (match x, y with
   | S754_infinity _, S754_infinity _ => False
   | _, _ => True
   end) ->
  sf_at_least_zero (SF64div x y) = true.
Proof.
  destruct x as [sx|sx| |sx mx ex], y as [sy|sy| |sy my ey];
    try destruct sx; try destruct sy;
    unfold SF64div, SFdiv; cbn [sf_at_least_zero sf_above_zero xorb];
    try congruence; try tauto; intros _ _ _.
  pose proof (div_core_quotient mx ex my ey) as Hq.
  destruct (SFdiv_core_binary prec emax (Z.pos mx) ex (Z.pos my) ey)
    as [[mz ez] lz]. cbn [fst] in Hq.
  now apply round_aux_at_least_zero.
Qed.

Lemma float_of_Z_at_least_zero (z : Z) :
  sf_at_least_zero (Prim2SF (float_of_Z z)) = true.
Proof.
  unfold float_of_Z. rewrite FloatAxioms.of_uint63_spec.
  pose proof (Uint63.to_Z_bounded (Uint63.of_Z z)) as [H _].
  destruct (Uint63.to_Z (Uint63.of_Z z)) as [|p|p]; cbn [binary_normalize].
  - reflexivity.
  - unfold binary_round. destruct (shl_align p 0 _) as [mz ez].
    apply round_aux_at_least_zero. lia.
  - lia.
Qed.

Lemma interval_minutes_at_least_zero (t0 t1 : datetime) :
  at_least_zero (interval_minutes t0 t1).
Proof.
  unfold interval_minutes. rewrite at_least_zero_spec, FloatAxioms.div_spec.
  apply sf_div_at_least_zero.
  - apply float_of_Z_at_least_zero.
  - reflexivity.
  - change (Prim2SF 60) with (S754_finite false 8444249301319680 (-47)).
    now destruct (Prim2SF _).
Qed.

Lemma rate_at_least_zero (avg_interval : float) :
  at_least_zero
    (if (0 <? avg_interval)%float then (1 / avg_interval)%float else 0%float).
Proof.
  destruct (0 <? avg_interval)%float eqn:H; [|reflexivity].
  rewrite at_least_zero_spec, FloatAxioms.div_spec.
  apply sf_div_at_least_zero.
  - reflexivity.
  - now apply above_zero_spec.
  - change (Prim2SF 1) with (S754_finite false 4503599627370496 (-52)).
    exact I.
Qed.

Lemma wait_at_least_zero (rate : float) (trend : string) :
  (0 <? rate)%float = true ->
  at_least_zero (adjusted_queue_length trend / rate)%float.
Proof.
  intros H. rewrite at_least_zero_spec, FloatAxioms.div_spec.
  assert (Hq : exists m e, Prim2SF (adjusted_queue_length trend)
                           = S754_finite false m e).
  { unfold adjusted_queue_length.
    destruct (String.eqb trend "slowing_down");
      [|destruct (String.eqb trend "speeding_up")]; eexists; eexists;
      vm_compute; reflexivity. }
  destruct Hq as (m & e & ->).
  apply sf_div_at_least_zero;
    [reflexivity | now apply above_zero_spec | exact I].
Qed.

(** ** The display loop: ranges and windows *)

Lemma py_range_positive (n step : Z) :
  0 < step ->
  exists ticks,
    py_range step n step = Some ticks
    /\ Z.of_nat (length ticks) = Z.max 0 ((n - 1) / step)
    /\ Forall (fun i => step <= i < n) ticks.
Proof.
  intros Hstep. unfold py_range.
  replace (step =? 0) with false by (symmetry; apply Z.eqb_neq; lia).
  replace (0 <? step) with true by (symmetry; apply Z.ltb_lt; lia).
  replace (n - step + step - 1) with (n - 1) by lia.
  eexists. split; [reflexivity|]. split.
  - rewrite length_map, length_seq. lia.
  - apply Forall_forall. intros i Hi. apply in_map_iff in Hi.
    destruct Hi as (k & <- & Hk). apply in_seq in Hk.
    pose proof (Z.mul_div_le (n - 1) step Hstep) as Hle.
    assert (Z.of_nat k + 1 <= (n - 1) / step) by lia.
    nia.
Qed.

Lemma py_range_negative (n step : Z) :
  step < 0 -> 0 <= n -> py_range step n step = Some [].
Proof.
  intros Hstep Hn. unfold py_range.
  replace (step =? 0) with false by (symmetry; apply Z.eqb_neq; lia).
  replace (0 <? step) with false by (symmetry; apply Z.ltb_ge; lia).
  replace (Z.to_nat ((step - n - step - 1) / - step)) with 0%nat;
    [reflexivity|].
  assert ((step - n - step - 1) / - step < 0); [|lia].
  apply Z.div_lt_upper_bound; lia.
Qed.

Lemma length_slice_between {A} (a b : Z) (l : list A) :
  0 <= a -> 0 <= b <= Z.of_nat (length l) ->
  Z.of_nat (length (slice_between a b l)) = Z.max 0 (b - a).
Proof.
  intros Ha Hb. unfold slice_between.
  rewrite length_skipn, length_firstn. lia.
Qed.

Lemma length_window {A} (i ws : Z) (l : list A) :
  0 <= i <= Z.of_nat (length l) ->
  Z.of_nat (length (slice_between (Z.max 0 (i - ws)) i l))
  = Z.max 0 (Z.min i ws).
Proof.
  intros Hi. rewrite length_slice_between by lia. lia.
Qed.

Lemma classify_trend_known (np_mean : list float -> float)
    (rates : list float) :
  known_trend (classify_trend np_mean rates).
Proof.
  unfold classify_trend, known_trend.
  repeat match goal with
         | |- context [if ?b then _ else _] => destruct b
         end; auto.
Qed.

Lemma classify_trend_short (np_mean : list float -> float)
    (rates : list float) :
  (length rates < 3)%nat -> classify_trend np_mean rates = "stable"%string.
Proof.
  intros H. unfold classify_trend. apply Nat.ltb_lt in H. now rewrite H.
Qed.

Lemma calculate_service_rate_known (np_mean : list float -> float)
    (self : WaitTimeEstimator) (timestamps : list datetime) :
  let result := calculate_service_rate np_mean self timestamps in
  at_least_zero (fst (fst result)) /\ known_trend (snd (fst result)).
Proof.
  cbn zeta. destruct (Nat.lt_ge_cases (length timestamps) 2) as [H|H].
  - rewrite calculate_service_rate_short by assumption.
    split; [reflexivity | unfold known_trend; auto].
  - rewrite (calculate_service_rate_long _ _ _ H). cbn [fst snd].
    split; [apply rate_at_least_zero | apply classify_trend_known].
Qed.

Lemma estimate_wait_time_known (np_std : list float -> float)
    (self : WaitTimeEstimator) (rate : float) (trend : string) :
  let result := fst (estimate_wait_time np_std self rate trend) in
  known_confidence (snd result)
  /\ ((length (service_rates self) < 5)%nat -> snd result = "Low"%string)
  /\ (at_least_zero rate -> at_least_zero (fst result)).
Proof.
  cbn zeta. unfold estimate_wait_time, known_confidence.
  destruct (rate =? 0)%float eqn:Hz; cbn [fst snd].
  - repeat split; auto.
  - split; [|split].
    + repeat match goal with
             | |- context [if ?b then _ else _] => destruct b
             end; auto.
    + intros H. apply Nat.ltb_lt in H. now rewrite H.
    + intros H. apply wait_at_least_zero. now apply nonzero_above_zero.
Qed.

Lemma detect_anomalies_short (np_mean np_std : list float -> float)
    (self : WaitTimeEstimator) (rates : list float) :
  (length rates < 5)%nat ->
  fst (detect_anomalies np_mean np_std self rates) = None.
Proof.
  intros H. unfold detect_anomalies. apply Nat.ltb_lt in H. now rewrite H.
Qed.

(** ** The estimator never leaves the numbers at least zero *)

Lemma intervals_all_at_least_zero (timestamps : list datetime) :
  Forall at_least_zero (intervals timestamps).
Proof.
  induction timestamps as [|t0 rest IH]; [constructor|].
  destruct rest as [|t1 rest]; [constructor|].
  cbn [intervals]. constructor; [apply interval_minutes_at_least_zero|].
  exact IH.
Qed.

(** Checked on each of the 86400 values of the seconds field. *)
Lemma seconds_of_a_day_below :
  all_from (fun s => (float_of_Z s / 60 <? 1440)%float) (Z.to_nat 86400) 0
  = true.
Proof. vm_compute. reflexivity. Qed.

Lemma interval_minutes_below_day (t0 t1 : datetime) :
  (interval_minutes t0 t1 <? 1440)%float = true.
Proof.
  unfold interval_minutes.
  pose proof (td_seconds_range (t1 - t0)) as Hrange.
  apply (all_from_spec (fun s => (float_of_Z s / 60 <? 1440)%float)
           (Z.to_nat 86400) 0 seconds_of_a_day_below).
  lia.
Qed.

(** X1.  The intervals [calculate_service_rate] measures: one for each pair
    of neighbouring timestamps, each at least 0 and below 1440 minutes (a
    day), whatever the order of the timestamps and however far apart they
    are.  A gap is measured by its [.seconds] field, so a timestamp that
    goes back in time or jumps by more than a day gives neither a negative
    interval nor one of a day or more. *)
Theorem intervals_within_a_day :
  forall timestamps,
    Forall (fun x => at_least_zero x /\ (x <? 1440)%float = true)
      (intervals timestamps)
    /\ length (intervals timestamps) = (length timestamps - 1)%nat.
Proof.
  intros timestamps. split; [|apply length_intervals].
  induction timestamps as [|t0 rest IH]; [constructor|].
  destruct rest as [|t1 rest]; [constructor|].
  cbn [intervals]. constructor; [|exact IH].
  split; [apply interval_minutes_at_least_zero|].
  apply interval_minutes_below_day.
Qed.

(** X2.  Whatever [np.mean] returns (a negative number or "not a number"
    included), [calculate_service_rate] returns a rate that is at least
    zero and one of the three trend labels; and if every rate in the
    history was at least zero before the call, every rate is so after
    it. *)
Theorem calculate_service_rate_at_least_zero :
  forall np_mean self timestamps,
    let result := calculate_service_rate np_mean self timestamps in
    at_least_zero (fst (fst result))
    /\ known_trend (snd (fst result))
    /\ (Forall at_least_zero (service_rates self) ->
        Forall at_least_zero (service_rates (snd result))).
Proof.
  intros np_mean self timestamps result. subst result.
  destruct (calculate_service_rate_known np_mean self timestamps)
    as [Hrate Htrend].
  split; [exact Hrate|]. split; [exact Htrend|].
  intros H. destruct (Nat.lt_ge_cases (length timestamps) 2) as [Hl|Hl].
  - now rewrite calculate_service_rate_short.
  - rewrite (calculate_service_rate_long _ _ _ Hl).
    cbn [snd set_service_rates service_rates].
    apply Forall_app. split; [exact H|].
    constructor; [apply rate_at_least_zero | constructor].
Qed.

Lemma calculate_service_rate_at_least_zero_witness :
  Forall at_least_zero (service_rates warming_estimator)
  /\ Forall at_least_zero
       (service_rates
          (snd (calculate_service_rate NumpyRef.mean warming_estimator
                  backwards_window))).
Proof.
  assert (H : Forall at_least_zero (service_rates warming_estimator))
    by (repeat constructor).
  split; [exact H|].
  exact (proj2 (proj2 (calculate_service_rate_at_least_zero NumpyRef.mean
                         warming_estimator backwards_window)) H).
Defined.

(** X3.  [estimate_wait_time] returns one of the three confidence labels,
    for any rate, trend label and [np.std]; and for a rate that is at least
    zero the wait it returns is at least zero (never negative, never "not a
    number"). *)
Theorem estimate_wait_time_at_least_zero :
  forall np_std self rate trend,
    let result := fst (estimate_wait_time np_std self rate trend) in
    known_confidence (snd result)
    /\ (at_least_zero rate -> at_least_zero (fst result)).
Proof.
  intros np_std self rate trend result. subst result.
  destruct (estimate_wait_time_known np_std self rate trend)
    as (Hconf & _ & Hwait).
  split; assumption.
Qed.

Lemma estimate_wait_time_at_least_zero_witness :
  at_least_zero 0.2%float
  /\ at_least_zero
       (fst (fst (estimate_wait_time NumpyRef.std steady_estimator 0.2
                    "unknown"))).
Proof.
  assert (H : at_least_zero 0.2%float) by reflexivity.
  split; [exact H|].
  exact (proj2 (estimate_wait_time_at_least_zero NumpyRef.std
                  steady_estimator 0.2%float "unknown") H).
Defined.

(** ** What the estimator never writes *)

Lemma after_call_configuration (np_mean np_std : list float -> float)
    (self : WaitTimeEstimator) (c : call) :
  window_size (after_call np_mean np_std self c) = window_size self
  /\ confidence_scores (after_call np_mean np_std self c)
     = confidence_scores self.
Proof.
  destruct c as [ts|r t|rs]; cbn [after_call].
  - unfold calculate_service_rate.
    destruct (length ts <? 2)%nat; split; reflexivity.
  - rewrite estimate_wait_time_pure. split; reflexivity.
  - rewrite detect_anomalies_pure. split; reflexivity.
Qed.

(** X4.  No sequence of calls to the three methods of the estimator writes
    [confidence_scores] or [window_size]: the list of confidence scores
    that [__init__] creates stays as it was (empty on a new estimator), the
    confidence labels being kept only where a caller stores them. *)
Theorem confidence_scores_never_written :
  forall np_mean np_std calls self,
    confidence_scores (after_calls np_mean np_std self calls)
    = confidence_scores self
    /\ window_size (after_calls np_mean np_std self calls) = window_size self.
Proof.
  intros np_mean np_std calls.
  induction calls as [|c calls IH]; intros self; [split; reflexivity|].
  cbn [after_calls fold_left].
  destruct (after_call_configuration np_mean np_std self c) as [Hw Hc].
  destruct (IH (after_call np_mean np_std self c)) as [Ic Iw].
  unfold after_calls in Ic, Iw. rewrite Ic, Iw. now split.
Qed.

(** ** One pass of the display loop *)

Section DisplayFacts.

Variable np_mean : list float -> float.
Variable np_std : list float -> float.

Lemma display_update_steps (timestamps : list datetime)
    (self : WaitTimeEstimator) (i : Z) :
  let window :=
    slice_between (Z.max 0 (i - window_size self)) i timestamps in
  let c := calculate_service_rate np_mean self window in
  let e := estimate_wait_time np_std (snd c) (fst (fst c)) (snd (fst c)) in
  let d := detect_anomalies np_mean np_std (snd c) (service_rates (snd c)) in
  display_update np_mean np_std timestamps self i
  = (mkUpdate (nth (Z.to_nat i) timestamps 0) (fst (fst e)) (snd (fst c))
       (snd (fst e)) (fst d),
     set_predictions (snd c) (predictions (snd c) ++ [fst e])).
Proof.
  cbn zeta. unfold display_update.
  destruct (calculate_service_rate np_mean self _) as [[rate trend] s1].
  cbn [fst snd].
  pose proof (estimate_wait_time_pure np_std s1 rate trend) as He.
  destruct (estimate_wait_time np_std s1 rate trend) as [[wait conf] s2].
  cbn [fst snd] in *. subst s2.
  pose proof (detect_anomalies_pure np_mean np_std s1 (service_rates s1)) as Hd.
  destruct (detect_anomalies np_mean np_std s1 (service_rates s1))
    as [anomaly s3].
  cbn [fst snd] in *. subst s3. reflexivity.
Qed.

Lemma window_size_calculate (self : WaitTimeEstimator)
    (timestamps : list datetime) :
  window_size (snd (calculate_service_rate np_mean self timestamps))
  = window_size self.
Proof.
  unfold calculate_service_rate.
  destruct (length timestamps <? 2)%nat; reflexivity.
Qed.

(** One pass of the loop, whatever the window. *)
Lemma display_update_facts (timestamps : list datetime)
    (self : WaitTimeEstimator) (i : Z) :
  let u := fst (display_update np_mean np_std timestamps self i) in
  let self' := snd (display_update np_mean np_std timestamps self i) in
  predictions self' = predictions self ++ [shown_prediction u]
  /\ window_size self' = window_size self
  /\ prefix_of (service_rates self) (service_rates self')
  /\ known_confidence (shown_confidence u)
  /\ known_trend (shown_status u)
  /\ at_least_zero (shown_wait u)
  /\ ((length (service_rates self') < 5)%nat ->
      shown_confidence u = "Low"%string /\ shown_alert u = None)
  /\ shown_alert u
     = fst (detect_anomalies np_mean np_std self' (service_rates self')).
Proof.
  cbn zeta. rewrite display_update_steps. cbn [fst snd].
  set (window := slice_between _ _ _).
  destruct (calculate_service_rate_grows np_mean self window) as [Hr Hp].
  destruct (calculate_service_rate_known np_mean self window) as [Hrate Htrend].
  set (c := calculate_service_rate np_mean self window) in *.
  destruct (estimate_wait_time_known np_std (snd c) (fst (fst c))
              (snd (fst c))) as (Hconf & Hlow & Hwait).
  cbn [set_predictions predictions window_size service_rates shown_prediction
       shown_wait shown_confidence shown_status shown_alert].
  split; [rewrite Hp; now destruct (fst (estimate_wait_time _ _ _ _))|].
  split; [apply window_size_calculate|].
  split; [exact Hr|]. split; [exact Hconf|]. split; [exact Htrend|].
  split; [now apply Hwait|]. split.
  - intros H. split; [now apply Hlow | now apply detect_anomalies_short].
  - unfold detect_anomalies.
    repeat match goal with
           | |- context [if ?b then _ else _] => destruct b
           end; reflexivity.
Qed.

(** One pass of the loop on a window of at least two timestamps. *)
Lemma display_update_long (timestamps : list datetime)
    (self : WaitTimeEstimator) (i : Z) :
  (2 <= length (slice_between (Z.max 0 (i - window_size self)) i
                  timestamps))%nat ->
  let u := fst (display_update np_mean np_std timestamps self i) in
  let self' := snd (display_update np_mean np_std timestamps self i) in
  (exists rate, service_rates self' = service_rates self ++ [rate]
                /\ at_least_zero rate /\ not_negative rate)
  /\ ((length (service_rates self') < 3)%nat ->
      shown_status u = "stable"%string).
Proof.
  intros Hlen. cbn zeta. rewrite display_update_steps. cbn [fst snd].
  rewrite (calculate_service_rate_long _ _ _ Hlen).
  cbn [fst snd set_predictions set_service_rates service_rates shown_status].
  split.
  - eexists. split; [reflexivity|].
    split; [apply rate_at_least_zero | apply rate_not_negative].
  - apply classify_trend_short.
Qed.

(** One pass of the loop on a window of fewer than two timestamps. *)
Lemma display_update_short (timestamps : list datetime)
    (self : WaitTimeEstimator) (i : Z) :
  (length (slice_between (Z.max 0 (i - window_size self)) i timestamps)
   < 2)%nat ->
  let u := fst (display_update np_mean np_std timestamps self i) in
  let self' := snd (display_update np_mean np_std timestamps self i) in
  service_rates self' = service_rates self
  /\ shown_prediction u = (0%float, "Low"%string)
  /\ shown_status u = "stable"%string.
Proof.
  intros Hlen. cbn zeta. rewrite display_update_steps. cbn [fst snd].
  rewrite calculate_service_rate_short by assumption.
  cbn [fst snd set_predictions service_rates shown_status shown_prediction
       shown_wait shown_confidence].
  repeat split.
Qed.

End DisplayFacts.

Section LoopFacts.

Variable np_mean : list float -> float.
Variable np_std : list float -> float.

Lemma display_updates_cons (timestamps : list datetime) (i : Z)
    (rest : list Z) (self : WaitTimeEstimator) :
  display_updates np_mean np_std timestamps (i :: rest) self
  = (fst (display_update np_mean np_std timestamps self i)
       :: fst (display_updates np_mean np_std timestamps rest
                 (snd (display_update np_mean np_std timestamps self i))),
     snd (display_updates np_mean np_std timestamps rest
            (snd (display_update np_mean np_std timestamps self i)))).
Proof.
  cbn [display_updates].
  destruct (display_update np_mean np_std timestamps self i) as [u s].
  cbn [fst snd].
  now destruct (display_updates np_mean np_std timestamps rest s).
Qed.

(** The loop over any indices. *)
Lemma display_updates_facts (timestamps : list datetime) (ticks : list Z) :
  forall self,
    let updates := fst (display_updates np_mean np_std timestamps ticks self) in
    let self' := snd (display_updates np_mean np_std timestamps ticks self) in
    length updates = length ticks
    /\ map update_time updates
       = map (fun i => nth (Z.to_nat i) timestamps 0) ticks
    /\ predictions self' = predictions self ++ map shown_prediction updates
    /\ window_size self' = window_size self
    /\ prefix_of (service_rates self) (service_rates self')
    /\ Forall sound_update updates.
Proof.
  induction ticks as [|i rest IH]; intros self; cbn zeta.
  - cbn. rewrite app_nil_r. repeat split; auto using prefix_of_refl.
  - rewrite display_updates_cons. cbn [fst snd length map].
    destruct (display_update_facts np_mean np_std timestamps self i)
      as (Hp & Hw & Hr & Hc & Ht & Hz & _).
    destruct (IH (snd (display_update np_mean np_std timestamps self i)))
      as (Il & Im & Ip & Iw & Ir & Is).
    split; [now rewrite Il|]. split.
    { rewrite Im. f_equal. rewrite display_update_steps. reflexivity. }
    split; [rewrite Ip, Hp, <- app_assoc; reflexivity|].
    split; [now rewrite Iw|].
    split; [eapply prefix_of_trans; eassumption|].
    constructor; [repeat split; assumption | exact Is].
Qed.

(** The loop over indices whose windows hold at least two timestamps: one
    rate per update, and the [k]-th update is computed on a history of
    [k + 1] more rates than at the start. *)
Lemma display_updates_aligned (timestamps : list datetime) (ticks : list Z) :
  forall self,
    2 <= window_size self ->
    Forall (fun i => 2 <= i <= Z.of_nat (length timestamps)) ticks ->
    let updates := fst (display_updates np_mean np_std timestamps ticks self) in
    let self' := snd (display_updates np_mean np_std timestamps ticks self) in
    length (service_rates self')
    = (length (service_rates self) + length ticks)%nat
    /\ (Forall not_negative (service_rates self) ->
        Forall not_negative (service_rates self'))
    /\ forall k u,
         nth_error updates k = Some u ->
         let seen := (length (service_rates self) + k + 1)%nat in
         ((seen < 5)%nat ->
          shown_confidence u = "Low"%string /\ shown_alert u = None)
         /\ ((seen < 3)%nat -> shown_status u = "stable"%string)
         /\ exists history,
              length history = seen
              /\ prefix_of (service_rates self) history
              /\ prefix_of history (service_rates self')
              /\ (Forall not_negative (service_rates self) ->
                  Forall not_negative history)
              /\ shown_alert u
                 = fst (detect_anomalies np_mean np_std self history).
Proof.
  induction ticks as [|i rest IH]; intros self Hws Hticks; cbn zeta.
  - cbn [display_updates fst snd length]. split; [lia|]. split; [auto|].
    intros k u Hk. destruct k; discriminate.
  - rewrite display_updates_cons. cbn [fst snd length].
    inversion Hticks as [|? ? Hi Hrest]; subst.
    assert (Hwin : (2 <= length (slice_between
                                   (Z.max 0 (i - window_size self)) i
                                   timestamps))%nat).
    { pose proof (length_window i (window_size self) timestamps
                    ltac:(lia)). lia. }
    destruct (display_update_facts np_mean np_std timestamps self i)
      as (_ & Hw & _ & _ & _ & _ & Hlow & Halert).
    destruct (display_update_long np_mean np_std timestamps self i Hwin)
      as ((rate & Hrates & _ & Hsign) & Hstable).
    set (s1 := snd (display_update np_mean np_std timestamps self i)) in *.
    set (u1 := fst (display_update np_mean np_std timestamps self i)) in *.
    assert (Hlen1 : length (service_rates s1)
                    = (length (service_rates self) + 1)%nat)
      by (rewrite Hrates, length_app; reflexivity).
    destruct (IH s1 ltac:(lia) Hrest) as (Il & Isign & Ik).
    split; [lia|]. split.
    { intros Hs. apply Isign. rewrite Hrates. apply Forall_app.
      split; [exact Hs | constructor; [exact Hsign | constructor]]. }
    intros k u Hk. destruct k as [|k].
    + cbn [nth_error] in Hk. injection Hk as <-. cbn zeta.
      replace (length (service_rates self) + 0 + 1)%nat
        with (length (service_rates s1)) by lia.
      split; [exact Hlow|]. split; [exact Hstable|].
      exists (service_rates s1). split; [reflexivity|].
      split; [rewrite Hrates; apply prefix_of_app|].
      split.
      { destruct (display_updates_facts timestamps rest s1)
          as (_ & _ & _ & _ & Hpre & _). exact Hpre. }
      split.
      { intros Hs. rewrite Hrates. apply Forall_app.
        split; [exact Hs | constructor; [exact Hsign | constructor]]. }
      rewrite Halert. unfold detect_anomalies.
      repeat match goal with
             | |- context [if ?b then _ else _] => destruct b
             end; reflexivity.
    + cbn [nth_error] in Hk. cbn zeta.
      destruct (Ik k u Hk) as (K1 & K2 & history & H1 & H2 & H3 & H4 & H5).
      replace (length (service_rates self) + S k + 1)%nat
        with (length (service_rates s1) + k + 1)%nat by lia.
      split; [exact K1|]. split; [exact K2|].
      exists history. split; [exact H1|].
      split.
      { eapply prefix_of_trans; [|exact H2]. rewrite Hrates.
        apply prefix_of_app. }
      split; [exact H3|]. split.
      { intros Hs. apply H4. rewrite Hrates. apply Forall_app.
        split; [exact Hs | constructor; [exact Hsign | constructor]]. }
      rewrite H5. unfold detect_anomalies.
      repeat match goal with
             | |- context [if ?b then _ else _] => destruct b
             end; reflexivity.
Qed.

End LoopFacts.

Section LoopTheorems.

Variable np_mean : list float -> float.
Variable np_std : list float -> float.

(** The loop over indices whose windows hold fewer than two timestamps. *)
Lemma display_updates_narrow (timestamps : list datetime) (ticks : list Z) :
  forall self,
    window_size self <= 1 ->
    Forall (fun i => 0 <= i <= Z.of_nat (length timestamps)) ticks ->
    let updates := fst (display_updates np_mean np_std timestamps ticks self) in
    let self' := snd (display_updates np_mean np_std timestamps ticks self) in
    service_rates self' = service_rates self
    /\ Forall (fun u => shown_prediction u = (0%float, "Low"%string)
                        /\ shown_status u = "stable"%string) updates.
Proof.
  induction ticks as [|i rest IH]; intros self Hws Hticks; cbn zeta.
  - cbn. auto.
  - rewrite display_updates_cons. cbn [fst snd].
    inversion Hticks as [|? ? Hi Hrest]; subst.
    assert (Hwin : (length (slice_between
                              (Z.max 0 (i - window_size self)) i
                              timestamps) < 2)%nat).
    { pose proof (length_window i (window_size self) timestamps
                    ltac:(lia)). lia. }
    destruct (display_update_short np_mean np_std timestamps self i Hwin)
      as (Hr & Hp & Hs).
    destruct (display_update_facts np_mean np_std timestamps self i)
      as (_ & Hw & _).
    destruct (IH (snd (display_update np_mean np_std timestamps self i))
                ltac:(lia) Hrest) as [Ir Iu].
    split; [now rewrite Ir|]. constructor; [now split | exact Iu].
Qed.

Lemma py_range_one (n : Z) :
  2 <= n ->
  exists rest,
    py_range 1 n 1 = Some (1 :: rest)
    /\ Forall (fun i => 2 <= i <= n) rest.
Proof.
  intros Hn. unfold py_range. cbn [Z.eqb Z.ltb Z.compare].
  replace (n - 1 + 1 - 1) with (n - 1) by lia. rewrite Z.div_1_r.
  destruct (Z.to_nat (n - 1)) as [|m] eqn:Hm; [lia|].
  cbn [seq map]. eexists. split; [reflexivity|].
  apply Forall_forall. intros i Hi. apply in_map_iff in Hi.
  destruct Hi as (k & <- & Hk). apply in_seq in Hk. lia.
Qed.

End LoopTheorems.

(** ** The display loop as a whole *)

(** The indices of a loop with a positive step: the multiples of the step
    below [n]. *)
Lemma py_range_forward (n step : Z) :
  0 < step ->
  py_range step n step
  = Some (map (fun k => step * (Z.of_nat k + 1))
            (seq 0 (Z.to_nat ((n - 1) / step)))).
Proof.
  intros Hstep. unfold py_range.
  replace (step =? 0) with false by (symmetry; apply Z.eqb_neq; lia).
  replace (0 <? step) with true by (symmetry; apply Z.ltb_lt; lia).
  replace (n - step + step - 1) with (n - 1) by lia.
  f_equal. apply map_ext. intros k. lia.
Qed.

Lemma forward_ticks_bounds (n step lo : Z) (count : nat) :
  0 < step -> lo <= step ->
  Z.of_nat count = Z.max 0 ((n - 1) / step) ->
  Forall (fun i => lo <= i <= n)
    (map (fun k => step * (Z.of_nat k + 1)) (seq 0 count)).
Proof.
  intros Hstep Hlo Hcount. apply Forall_forall. intros i Hi.
  apply in_map_iff in Hi. destruct Hi as (k & <- & Hk).
  apply in_seq in Hk.
  assert (Hq : Z.of_nat k + 1 <= (n - 1) / step) by lia.
  assert (Hm : step * ((n - 1) / step) <= n - 1)
    by (apply Z.mul_div_le; lia).
  nia.
Qed.

Lemma Forall_firstn_nth {A} (P : A -> Prop) (n : nat) :
  forall l : list A,
    (forall k u, nth_error l k = Some u -> (k < n)%nat -> P u) ->
    Forall P (firstn n l).
Proof.
  induction n as [|n IH]; intros l H; [constructor|].
  destruct l as [|a l]; [constructor|]. cbn [firstn]. constructor.
  - apply (H 0%nat a); [reflexivity | lia].
  - apply IH. intros k u Hk Hlt. apply (H (S k) u); [exact Hk | lia].
Qed.

(** X5.  Given the list of timestamps, [simulate_public_display_output]
    raises exactly when [update_interval] is 0 (the [ValueError] of
    [range]); with a negative [update_interval] it shows no update and
    leaves the estimator as it was. *)
Theorem simulate_public_display_output_interval :
  forall np_mean np_std estimator timestamps update_interval,
    (simulate_public_display_output np_mean np_std estimator timestamps
       update_interval = None <-> update_interval = 0)
    /\ (update_interval < 0 ->
        simulate_public_display_output np_mean np_std estimator timestamps
          update_interval = Some ([], estimator)).
Proof.
  intros np_mean np_std estimator timestamps ui.
  unfold simulate_public_display_output. split.
  - unfold py_range. destruct (ui =? 0) eqn:Hz.
    + apply Z.eqb_eq in Hz. now split.
    + apply Z.eqb_neq in Hz. split; [discriminate | contradiction].
  - intros Hneg. rewrite py_range_negative by lia. reflexivity.
Qed.

Lemma simulate_public_display_output_interval_witness :
  -5 < 0
  /\ simulate_public_display_output NumpyRef.mean NumpyRef.std
       steady_estimator sample_window (-5)
     = Some ([], steady_estimator).
Proof.
  assert (H : -5 < 0) by lia.
  split; [exact H|].
  exact (proj2 (simulate_public_display_output_interval NumpyRef.mean
                  NumpyRef.std steady_estimator sample_window (-5)) H).
Defined.

(** X6.  With a positive [update_interval] the loop over [n] timestamps
    ends without raising after [max(0, (n - 1) // update_interval)]
    updates; update number [k] (from 0) carries the timestamp at index
    [update_interval * (k + 1)]; [predictions] gains exactly the (wait,
    confidence) pairs shown, in order; every update shows a known
    confidence label, a known trend label and a wait that is at least
    zero; the window size is unchanged and the rates recorded before are
    kept. *)
Theorem simulate_public_display_output_updates :
  forall np_mean np_std estimator timestamps update_interval,
    0 < update_interval ->
    exists updates estimator',
      simulate_public_display_output np_mean np_std estimator timestamps
        update_interval = Some (updates, estimator')
      /\ Z.of_nat (length updates)
         = Z.max 0 ((Z.of_nat (length timestamps) - 1) / update_interval)
      /\ map update_time updates
         = map (fun k =>
                  nth (Z.to_nat (update_interval * (Z.of_nat k + 1)))
                    timestamps 0)
             (seq 0 (length updates))
      /\ predictions estimator'
         = predictions estimator ++ map shown_prediction updates
      /\ Forall sound_update updates
      /\ window_size estimator' = window_size estimator
      /\ prefix_of (service_rates estimator) (service_rates estimator').
Proof.
  intros np_mean np_std estimator timestamps ui Hui.
  unfold simulate_public_display_output.
  rewrite py_range_forward by assumption.
  set (ticks := map _ (seq 0 _)).
  destruct (display_updates_facts np_mean np_std timestamps ticks estimator)
    as (Hlen & Htimes & Hpred & Hws & Hrates & Hsound).
  destruct (display_updates np_mean np_std timestamps ticks estimator)
    as [updates estimator'] eqn:Hrun.
  cbn [fst snd] in *.
  exists updates, estimator'. split; [reflexivity|].
  assert (Hticks : length ticks
                   = Z.to_nat ((Z.of_nat (length timestamps) - 1) / ui)).
  { subst ticks. now rewrite length_map, length_seq. }
  split; [rewrite Hlen, Hticks; lia|].
  split.
  { rewrite Htimes, Hlen, Hticks. subst ticks. now rewrite map_map. }
  repeat (split; [assumption|]). assumption.
Qed.

Lemma simulate_public_display_output_updates_witness :
  0 < 5
  /\ exists updates estimator',
       simulate_public_display_output NumpyRef.mean NumpyRef.std
         (new_estimator 10) day_stream 5 = Some (updates, estimator')
       /\ Z.of_nat (length updates)
          = Z.max 0 ((Z.of_nat (length day_stream) - 1) / 5)
       /\ map update_time updates
          = map (fun k => nth (Z.to_nat (5 * (Z.of_nat k + 1))) day_stream 0)
              (seq 0 (length updates))
       /\ predictions estimator'
          = predictions (new_estimator 10) ++ map shown_prediction updates
       /\ Forall sound_update updates
       /\ window_size estimator' = window_size (new_estimator 10)
       /\ prefix_of (service_rates (new_estimator 10))
            (service_rates estimator').
Proof.
  assert (H : 0 < 5) by lia.
  split; [exact H|].
  exact (simulate_public_display_output_updates NumpyRef.mean NumpyRef.std
           (new_estimator 10) day_stream 5 H).
Defined.

(** X7.  With a window of at least 2 and an update interval of at least 2,
    every update records exactly one rate, so rates and updates stay in
    step; rates that were not negative stay so; and an update by which
    fewer than 5 rates have been recorded shows confidence Low and no
    alert, one by which fewer than 3 have been recorded shows the trend
    stable.  From a new estimator: the first four updates are Low without
    alert, the first two stable. *)
Theorem simulate_public_display_output_warm_up :
  forall np_mean np_std estimator timestamps update_interval,
    2 <= window_size estimator -> 2 <= update_interval ->
    exists updates estimator',
      simulate_public_display_output np_mean np_std estimator timestamps
        update_interval = Some (updates, estimator')
      /\ length (service_rates estimator')
         = (length (service_rates estimator) + length updates)%nat
      /\ (Forall not_negative (service_rates estimator) ->
          Forall not_negative (service_rates estimator'))
      /\ forall k u,
           nth_error updates k = Some u ->
           let seen := (length (service_rates estimator) + k + 1)%nat in
           ((seen < 5)%nat ->
            shown_confidence u = "Low"%string /\ shown_alert u = None)
           /\ ((seen < 3)%nat -> shown_status u = "stable"%string).
Proof.
  intros np_mean np_std estimator timestamps ui Hws Hui.
  unfold simulate_public_display_output.
  rewrite py_range_forward by lia.
  set (ticks := map _ (seq 0 _)).
  assert (Hticks : Forall (fun i => 2 <= i <= Z.of_nat (length timestamps))
                     ticks).
  { subst ticks. apply forward_ticks_bounds; lia. }
  destruct (display_updates_facts np_mean np_std timestamps ticks estimator)
    as (Hlen & _).
  destruct (display_updates_aligned np_mean np_std timestamps ticks estimator
              Hws Hticks) as (Hrates & Hsign & Hwarm).
  destruct (display_updates np_mean np_std timestamps ticks estimator)
    as [updates estimator'] eqn:Hrun.
  cbn [fst snd] in *.
  exists updates, estimator'. split; [reflexivity|].
  split; [now rewrite Hrates, Hlen|]. split; [exact Hsign|].
  intros k u Hk. destruct (Hwarm k u Hk) as (H5 & H3 & _).
  split; assumption.
Qed.

Lemma simulate_public_display_output_warm_up_witness :
  2 <= window_size (new_estimator 10) /\ 2 <= 5
  /\ exists updates estimator',
       simulate_public_display_output NumpyRef.mean NumpyRef.std
         (new_estimator 10) day_stream 5 = Some (updates, estimator')
       /\ length (service_rates estimator')
          = (length (service_rates (new_estimator 10)) + length updates)%nat
       /\ (Forall not_negative (service_rates (new_estimator 10)) ->
           Forall not_negative (service_rates estimator'))
       /\ forall k u,
            nth_error updates k = Some u ->
            let seen :=
              (length (service_rates (new_estimator 10)) + k + 1)%nat in
            ((seen < 5)%nat ->
             shown_confidence u = "Low"%string /\ shown_alert u = None)
            /\ ((seen < 3)%nat -> shown_status u = "stable"%string).
Proof.
  assert (Hws : 2 <= window_size (new_estimator 10)) by (cbn; lia).
  assert (Hui : 2 <= 5) by lia.
  split; [exact Hws|]. split; [exact Hui|].
  exact (simulate_public_display_output_warm_up NumpyRef.mean NumpyRef.std
           (new_estimator 10) day_stream 5 Hws Hui).
Defined.

(** X8.  On a new estimator with a window of at least 2 and an update
    interval of at least 2, and with an [np.std] that is never negative and
    an [np.mean] that is not negative on rates that are not: none of the
    first five updates shows an alert (the fifth compares the five rates
    with themselves), and the sixth never shows the variability alert. *)
Theorem simulate_public_display_output_first_alerts :
  forall np_mean np_std timestamps window update_interval,
    (forall l, not_negative (np_std l)) ->
    (forall l, Forall not_negative l -> not_negative (np_mean l)) ->
    2 <= window -> 2 <= update_interval ->
    exists updates estimator',
      simulate_public_display_output np_mean np_std (new_estimator window)
        timestamps update_interval = Some (updates, estimator')
      /\ Forall (fun u => shown_alert u = None) (firstn 5 updates)
      /\ Forall (fun u => shown_alert u <> Some high_variability)
           (firstn 6 updates).
Proof.
  intros np_mean np_std timestamps window ui Hstd Hmean Hws Hui.
  unfold simulate_public_display_output.
  rewrite py_range_forward by lia.
  set (ticks := map _ (seq 0 _)).
  assert (Hticks : Forall (fun i => 2 <= i <= Z.of_nat (length timestamps))
                     ticks).
  { subst ticks. apply forward_ticks_bounds; lia. }
  destruct (display_updates_aligned np_mean np_std timestamps ticks
              (new_estimator window) Hws Hticks) as (_ & _ & Hwarm).
  destruct (display_updates np_mean np_std timestamps ticks
              (new_estimator window)) as [updates estimator'] eqn:Hrun.
  cbn [fst snd new_estimator service_rates length Nat.add] in *.
  exists updates, estimator'. split; [reflexivity|].
  assert (Hfive : forall self history,
             length history = 5%nat -> Forall not_negative history ->
             fst (detect_anomalies np_mean np_std self history) = None).
  { intros self history H5 Hnn. change history with ([] ++ history).
    rewrite detect_anomalies_split by assumption.
    apply anomaly_rule_self_comparison; [apply Hstd | now apply Hmean]. }
  assert (Hsix : forall self history,
             length history = 6%nat ->
             fst (detect_anomalies np_mean np_std self history)
             <> Some high_variability).
  { intros self history H6.
    destruct (split_last 5 history) as [Hsplit H5]; [lia|].
    rewrite Hsplit, detect_anomalies_split by assumption.
    apply anomaly_rule_no_variability; [|apply Hstd].
    unfold slice_but_last. rewrite length_firstn. lia. }
  assert (Hup : forall k u,
             nth_error updates k = Some u ->
             ((k < 5)%nat -> shown_alert u = None)
             /\ ((k < 6)%nat -> shown_alert u <> Some high_variability)).
  { intros k u Hk.
    destruct (Hwarm k u Hk)
      as (H5 & _ & history & Hlen & _ & _ & Hsign & Halert).
    assert (Hnn : Forall not_negative history) by (apply Hsign; constructor).
    split; intros Hlt.
    - destruct (Nat.eq_dec k 4) as [->|Hne].
      + rewrite Halert. now apply Hfive.
      + apply H5. lia.
    - destruct (Nat.eq_dec k 5) as [->|Hne].
      + rewrite Halert. now apply Hsix.
      + destruct (Nat.eq_dec k 4) as [->|Hne4].
        * rewrite Halert, Hfive by assumption. discriminate.
        * destruct H5 as [_ ->]; [lia | discriminate]. }
  split; apply Forall_firstn_nth; intros k u Hk Hlt;
    now apply (Hup k u Hk).
Qed.

Lemma simulate_public_display_output_first_alerts_witness :
  (forall l, not_negative (NumpyRef.std l))
  /\ (forall l, Forall not_negative l -> not_negative (NumpyRef.mean l))
  /\ 2 <= 10 /\ 2 <= 5
  /\ exists updates estimator',
       simulate_public_display_output NumpyRef.mean NumpyRef.std
         (new_estimator 10) day_stream 5 = Some (updates, estimator')
       /\ Forall (fun u => shown_alert u = None) (firstn 5 updates)
       /\ Forall (fun u => shown_alert u <> Some high_variability)
            (firstn 6 updates).
Proof.
  assert (Hws : 2 <= 10) by lia.
  assert (Hui : 2 <= 5) by lia.
  split; [exact std_not_negative|]. split; [exact mean_not_negative|].
  split; [exact Hws|]. split; [exact Hui|].
  exact (simulate_public_display_output_first_alerts NumpyRef.mean
           NumpyRef.std day_stream 10 5 std_not_negative mean_not_negative
           Hws Hui).
Defined.

(** X9.  With an update interval of 1 (and a window of at least 2, at least
    2 timestamps) the first update is computed from a single timestamp: it
    shows a wait of 0, confidence Low and the trend stable, and records no
    rate.  Every later update records one, so in the end the estimator
    holds one prediction more than it gained rates. *)
Theorem simulate_public_display_output_unit_interval :
  forall np_mean np_std estimator timestamps,
    2 <= window_size estimator -> (2 <= length timestamps)%nat ->
    exists first later estimator',
      simulate_public_display_output np_mean np_std estimator timestamps 1
      = Some (first :: later, estimator')
      /\ shown_prediction first = (0%float, "Low"%string)
      /\ shown_status first = "stable"%string
      /\ length (service_rates estimator')
         = (length (service_rates estimator) + length later)%nat
      /\ length (predictions estimator')
         = (length (predictions estimator) + length later + 1)%nat.
Proof.
  intros np_mean np_std estimator timestamps Hws Hlen.
  unfold simulate_public_display_output.
  destruct (py_range_one (Z.of_nat (length timestamps)) ltac:(lia))
    as (rest & -> & Hrest).
  rewrite display_updates_cons.
  assert (Hwin : (length (slice_between (Z.max 0 (1 - window_size estimator))
                            1 timestamps) < 2)%nat).
  { pose proof (length_window 1 (window_size estimator) timestamps
                  ltac:(lia)). lia. }
  destruct (display_update_short np_mean np_std timestamps estimator 1 Hwin)
    as (Hrates1 & Hshown & Hstatus).
  destruct (display_update_facts np_mean np_std timestamps estimator 1)
    as (Hpred1 & Hws1 & _).
  set (first := fst (display_update np_mean np_std timestamps estimator 1))
    in *.
  set (s1 := snd (display_update np_mean np_std timestamps estimator 1)) in *.
  destruct (display_updates_aligned np_mean np_std timestamps rest s1
              ltac:(lia) Hrest) as (Hrates & _).
  destruct (display_updates_facts np_mean np_std timestamps rest s1)
    as (Hcount & _ & Hpred & _).
  set (later := fst (display_updates np_mean np_std timestamps rest s1)) in *.
  set (estimator' := snd (display_updates np_mean np_std timestamps rest s1))
    in *.
  exists first, later, estimator'. split; [reflexivity|].
  split; [exact Hshown|]. split; [exact Hstatus|]. split.
  - rewrite Hrates, Hrates1, Hcount. reflexivity.
  - rewrite Hpred, Hpred1, !length_app, length_map. cbn [length]. lia.
Qed.

Lemma simulate_public_display_output_unit_interval_witness :
  2 <= window_size (new_estimator 10) /\ (2 <= length sample_window)%nat
  /\ exists first later estimator',
       simulate_public_display_output NumpyRef.mean NumpyRef.std
         (new_estimator 10) sample_window 1
       = Some (first :: later, estimator')
       /\ shown_prediction first = (0%float, "Low"%string)
       /\ shown_status first = "stable"%string
       /\ length (service_rates estimator')
          = (length (service_rates (new_estimator 10)) + length later)%nat
       /\ length (predictions estimator')
          = (length (predictions (new_estimator 10)) + length later + 1)%nat.
Proof.
  assert (Hws : 2 <= window_size (new_estimator 10)) by (cbn; lia).
  assert (Hlen : (2 <= length sample_window)%nat) by (cbn; lia).
  split; [exact Hws|]. split; [exact Hlen|].
  exact (simulate_public_display_output_unit_interval NumpyRef.mean
           NumpyRef.std (new_estimator 10) sample_window Hws Hlen).
Defined.

(** X10.  With a window size of 1 or less no window ever holds two
    timestamps: the loop records no rate at all, and every update shows a
    wait of 0, confidence Low and the trend stable. *)
Theorem simulate_public_display_output_narrow_window :
  forall np_mean np_std estimator timestamps update_interval,
    window_size estimator <= 1 -> 0 < update_interval ->
    exists updates estimator',
      simulate_public_display_output np_mean np_std estimator timestamps
        update_interval = Some (updates, estimator')
      /\ service_rates estimator' = service_rates estimator
      /\ Forall (fun u => shown_prediction u = (0%float, "Low"%string)
                          /\ shown_status u = "stable"%string) updates.
Proof.
  intros np_mean np_std estimator timestamps ui Hws Hui.
  unfold simulate_public_display_output.
  rewrite py_range_forward by lia.
  set (ticks := map _ (seq 0 _)).
  assert (Hticks : Forall (fun i => 0 <= i <= Z.of_nat (length timestamps))
                     ticks).
  { subst ticks. apply forward_ticks_bounds; lia. }
  destruct (display_updates_narrow np_mean np_std timestamps ticks estimator
              Hws Hticks) as (Hrates & Hshown).
  destruct (display_updates np_mean np_std timestamps ticks estimator)
    as [updates estimator'] eqn:Hrun.
  cbn [fst snd] in *.
  exists updates, estimator'. split; [reflexivity|]. now split.
Qed.

Lemma simulate_public_display_output_narrow_window_witness :
  window_size (new_estimator 1) <= 1 /\ 0 < 5
  /\ exists updates estimator',
       simulate_public_display_output NumpyRef.mean NumpyRef.std
         (new_estimator 1) day_stream 5 = Some (updates, estimator')
       /\ service_rates estimator' = service_rates (new_estimator 1)
       /\ Forall (fun u => shown_prediction u = (0%float, "Low"%string)
                           /\ shown_status u = "stable"%string) updates.
Proof.
  assert (Hws : window_size (new_estimator 1) <= 1) by (cbn; lia).
  assert (Hui : 0 < 5) by lia.
  split; [exact Hws|]. split; [exact Hui|].
  exact (simulate_public_display_output_narrow_window NumpyRef.mean
           NumpyRef.std (new_estimator 1) day_stream 5 Hws Hui).
Defined.


(** ** The chart *)

Lemma conf_colors_none (confidences : list string) :
  conf_colors confidences = None
  <-> exists c, In c confidences /\ colors c = None.
Proof.
  induction confidences as [|c rest IH]; cbn [conf_colors].
  - split; [discriminate | intros (c & [] & _)].
  - destruct (colors c) eqn:Hc.
    + destruct (conf_colors rest) eqn:Hrest.
      * split; [discriminate|]. intros (c' & [<-|Hin] & Hnone).
        -- congruence.
        -- assert (Habs : Some l = None) by (apply IH; eauto).
           discriminate Habs.
      * split; [|reflexivity]. intros _.
        destruct (proj1 IH eq_refl) as (c' & Hin & Hnone).
        exists c'. split; [now right | exact Hnone].
    + split; [|reflexivity]. intros _. exists c. split; [now left | exact Hc].
Qed.

Lemma conf_colors_some (confidences : list string) (colours : list string) :
  conf_colors confidences = Some colours ->
  length colours = length confidences.
Proof.
  revert colours. induction confidences as [|c rest IH]; intros colours H.
  - cbn in H. now injection H as <-.
  - cbn [conf_colors] in H. destruct (colors c); [|discriminate].
    destruct (conf_colors rest) eqn:Hrest; [|discriminate].
    injection H as <-. cbn [length]. f_equal. now apply IH.
Qed.

Lemma highlight_chart (service_rates : list float) :
  exists spans labels,
    highlight service_rates chart_patterns = Some (spans, labels)
    /\ Forall (span_within (Z.of_nat (length service_rates))) spans
    /\ length labels = length spans
    /\ (service_rates = [] -> spans = [])
    /\ ((0 < length service_rates <= 30)%nat ->
        spans = [(0, Z.of_nat (length service_rates))]).
Proof.
  destruct service_rates as [|r rest].
  - exists [], []. repeat split; auto. cbn [length]; intros []; lia.
  - unfold chart_patterns. cbn [highlight py_max].
    set (n := Z.of_nat (length (r :: rest))).
    assert (Hn : 0 < n) by (subst n; cbn [length]; lia).
    destruct (Z.ltb_spec 0 n); [|lia].
    destruct (Z.ltb_spec 30 n); destruct (Z.ltb_spec 75 n);
      destruct (Z.ltb_spec 105 n); try lia;
      eexists; eexists; (split; [reflexivity|]);
      (split; [repeat constructor; cbn [fst snd]; lia|]);
      (split; [reflexivity|]); (split; [discriminate|]);
      intros [_ Hle]; try (exfalso; subst n; lia);
      do 2 f_equal; lia.
Qed.

Lemma conf_colors_each (confidences colours : list string) :
  conf_colors confidences = Some colours ->
  Forall2 (fun c colour => colors c = Some colour) confidences colours.
Proof.
  revert colours. induction confidences as [|c rest IH]; intros colours H.
  - injection H as <-. constructor.
  - cbn [conf_colors] in H. destruct (colors c) as [colour|] eqn:Hc;
      [|discriminate].
    destruct (conf_colors rest) as [rest'|]; [|discriminate].
    injection H as <-. constructor; [exact Hc | now apply IH].
Qed.

Lemma known_confidence_colour (c : string) :
  known_confidence c -> colors c <> None.
Proof. intros [-> | [-> | ->]]; discriminate. Qed.

Lemma bars_combine (predictions : list (float * string))
    (colours : list string) :
  Forall2 (fun c colour => colors c = Some colour) (map snd predictions)
    colours ->
  Forall2 (fun bar p => fst bar = fst p /\ colors (snd p) = Some (snd bar))
    (combine (map fst predictions) colours) predictions.
Proof.
  revert colours. induction predictions as [|p rest IH]; intros colours H.
  - constructor.
  - cbn [map] in H. inversion H as [|c colour cs cols Hc Hrest]; subst.
    cbn [map combine]. constructor; [now split | now apply IH].
Qed.

Lemma validation_overlay_points (waits : option (list float))
    (pred_times curve : list float) :
  validation_overlay waits pred_times = Some curve ->
  exists ws, waits = Some ws /\ curve = firstn (length pred_times) ws
             /\ length curve = length pred_times.
Proof.
  unfold validation_overlay. destruct waits as [[|w ws]|]; try discriminate.
  destruct (length pred_times <=? length (w :: ws))%nat eqn:Hle;
    [|discriminate].
  apply Nat.leb_le in Hle. intros H. injection H as <-.
  exists (w :: ws). split; [reflexivity|]. split; [reflexivity|].
  rewrite length_firstn. lia.
Qed.


(** The chart in one equation: the pattern loop always succeeds, and the
    rest depends on the colour lookups alone. *)
Lemma visualize_results_cases (np_mean : list float -> float)
    (rates : list float) (predictions : list (float * string))
    (waits : option (list float)) :
  exists shaded texts,
    highlight rates chart_patterns = Some (shaded, texts)
    /\ visualize_results np_mean rates predictions waits
       = match conf_colors (map snd predictions) with
         | None => None
         | Some colours =>
             Some (mkFigure rates (np_mean rates) shaded texts
                     (combine (map fst predictions) colours)
                     (match predictions with
                      | [] => None
                      | _ :: _ =>
                          validation_overlay waits (map fst predictions)
                      end))
         end.
Proof.
  destruct (highlight_chart rates) as (shaded & texts & Hh & _).
  exists shaded, texts. split; [exact Hh|].
  unfold visualize_results. rewrite Hh.
  destruct predictions as [|p rest]; reflexivity.
Qed.

(** X11.  [visualize_results] raises whenever some prediction carries a
    confidence that is not a key of [colors] (High, Medium, Low): the
    colour lookup of line 259 raises [KeyError], whatever the rates and the
    wait times passed. *)
Theorem visualize_results_raises :
  forall np_mean service_rates predictions actual_wait_times,
    (exists p, In p predictions /\ colors (snd p) = None) ->
    visualize_results np_mean service_rates predictions actual_wait_times
    = None.
Proof.
  intros np_mean rates predictions waits (q & Hq & Hnone).
  destruct (visualize_results_cases np_mean rates predictions waits)
    as (shaded & texts & _ & ->).
  assert (Hc : conf_colors (map snd predictions) = None).
  { apply conf_colors_none. exists (snd q).
    split; [now apply in_map | exact Hnone]. }
  now rewrite Hc.
Qed.

Lemma visualize_results_raises_witness :
  (exists p, In p unlabelled_predictions /\ colors (snd p) = None)
  /\ visualize_results NumpyRef.mean sample_rates unlabelled_predictions
       (Some sample_waits) = None.
Proof.
  assert (H : exists p, In p unlabelled_predictions /\ colors (snd p) = None).
  { exists (12%float, "Unknown"%string).
    split; [right; left; reflexivity | reflexivity]. }
  split; [exact H|].
  exact (visualize_results_raises NumpyRef.mean sample_rates
           unlabelled_predictions (Some sample_waits) H).
Defined.

(** X12.  What a chart that is drawn shows: the rates as given; shaded
    spans that are not empty and lie within the rates, with one label for
    each span (none for empty rates); one bar for each prediction, of the
    predicted height and in the colour of its confidence; and a validation
    curve, when there is one, made of the first wait times, as many as
    there are predictions. *)
Theorem visualize_results_figure :
  forall np_mean service_rates predictions actual_wait_times figure,
    visualize_results np_mean service_rates predictions actual_wait_times
    = Some figure ->
    rate_line figure = service_rates
    /\ Forall (span_within (Z.of_nat (length service_rates))) (spans figure)
    /\ length (labels figure) = length (spans figure)
    /\ (service_rates = [] -> spans figure = [])
    /\ Forall2 (fun bar p =>
                  fst bar = fst p /\ colors (snd p) = Some (snd bar))
         (bars figure) predictions
    /\ forall curve,
         overlay figure = Some curve ->
         exists waits,
           actual_wait_times = Some waits
           /\ curve = firstn (length predictions) waits
           /\ length curve = length predictions.
Proof.
  intros np_mean rates predictions waits figure.
  destruct (visualize_results_cases np_mean rates predictions waits)
    as (shaded & texts & Hh & ->).
  destruct (highlight_chart rates)
    as (shaded' & texts' & Hh' & Hspans & Hlabels & Hempty & _).
  rewrite Hh in Hh'. injection Hh' as <- <-.
  destruct (conf_colors (map snd predictions)) as [colours|] eqn:Hc;
    [|discriminate].
  intros H. injection H as <-.
  cbn [rate_line spans labels bars overlay].
  split; [reflexivity|]. split; [assumption|]. split; [assumption|].
  split; [assumption|]. split.
  - exact (bars_combine predictions colours (conf_colors_each _ _ Hc)).
  - intros curve Hcurve.
    destruct predictions as [|p rest]; [discriminate|].
    destruct (validation_overlay_points waits (map fst (p :: rest)) curve
                Hcurve) as (ws & Hws & Hfirst & Hlen).
    rewrite (length_map fst (p :: rest)) in Hfirst, Hlen. now exists ws.
Qed.

Lemma visualize_results_figure_witness :
  exists figure,
    visualize_results NumpyRef.mean sample_rates sample_predictions
      (Some sample_waits) = Some figure
    /\ spans figure = [(0, 2)]
    /\ Forall2 (fun bar p =>
                  fst bar = fst p /\ colors (snd p) = Some (snd bar))
         (bars figure) sample_predictions.
Proof.
  eexists. split; [vm_compute; reflexivity|]. split; [reflexivity|].
  exact (proj1 (proj2 (proj2 (proj2 (proj2
           (visualize_results_figure NumpyRef.mean sample_rates
              sample_predictions (Some sample_waits) _ eq_refl)))))).
Defined.

(** X13.  The predictions the display loop stores never make the colour
    lookup of the chart raise: when every prediction held before the loop
    carries a known confidence (as on a new estimator, which holds none),
    so does every prediction held after it, and the list comprehension
    [[colors[c] for c in confidences]] of [visualize_results] returns one
    colour for each prediction held before and each update shown. *)
Theorem display_predictions_have_colours :
  forall np_mean np_std estimator timestamps update_interval updates
         estimator',
    Forall (fun p => known_confidence (snd p)) (predictions estimator) ->
    simulate_public_display_output np_mean np_std estimator timestamps
      update_interval = Some (updates, estimator') ->
    Forall (fun p => known_confidence (snd p)) (predictions estimator')
    /\ exists colours,
         conf_colors (map snd (predictions estimator')) = Some colours
         /\ length colours
            = (length (predictions estimator) + length updates)%nat.
Proof.
  intros np_mean np_std estimator timestamps ui updates estimator'
    Hknown Hrun.
  unfold simulate_public_display_output in Hrun.
  destruct (py_range ui (Z.of_nat (length timestamps)) ui) as [ticks|];
    [|discriminate].
  destruct (display_updates_facts np_mean np_std timestamps ticks estimator)
    as (_ & _ & Hpred & _ & _ & Hsound).
  injection Hrun as Hrun. rewrite Hrun in Hpred, Hsound.
  cbn [fst snd] in Hpred, Hsound.
  assert (Hall : Forall (fun p => known_confidence (snd p))
                   (predictions estimator')).
  { rewrite Hpred. apply Forall_app. split; [exact Hknown|].
    apply Forall_map. eapply Forall_impl; [|exact Hsound].
    intros u (Hc & _). exact Hc. }
  split; [exact Hall|].
  destruct (conf_colors (map snd (predictions estimator')))
    as [colours|] eqn:Hc.
  - exists colours. split; [reflexivity|].
    apply conf_colors_some in Hc.
    rewrite Hc, length_map, Hpred, length_app, length_map. reflexivity.
  - exfalso. apply conf_colors_none in Hc.
    destruct Hc as (c & Hin & Hnone).
    apply in_map_iff in Hin. destruct Hin as (q & <- & Hq).
    rewrite Forall_forall in Hall.
    exact (known_confidence_colour _ (Hall q Hq) Hnone).
Qed.

Lemma display_predictions_have_colours_witness :
  Forall (fun p => known_confidence (snd p))
    (predictions (new_estimator 10))
  /\ simulate_public_display_output NumpyRef.mean NumpyRef.std
       (new_estimator 10) sample_window 1
     = Some (fst sample_run, snd sample_run)
  /\ exists colours,
       conf_colors (map snd (predictions (snd sample_run))) = Some colours
       /\ length colours
          = (length (predictions (new_estimator 10))
             + length (fst sample_run))%nat.
Proof.
  assert (Hknown : Forall (fun p => known_confidence (snd p))
                     (predictions (new_estimator 10))) by constructor.
  assert (Hrun : simulate_public_display_output NumpyRef.mean NumpyRef.std
                   (new_estimator 10) sample_window 1
                 = Some (fst sample_run, snd sample_run))
    by (vm_compute; reflexivity).
  split; [exact Hknown|]. split; [exact Hrun|].
  exact (proj2 (display_predictions_have_colours NumpyRef.mean NumpyRef.std
                  (new_estimator 10) sample_window 1 (fst sample_run)
                  (snd sample_run) Hknown Hrun)).
Defined.

(** ** Runs of the generator on any simulator *)

Lemma customers_in_hours_step (hour : Z) :
  0 <= hour ->
  customers_in_hours (hour + 1)
  = customers_in_hours hour + Z.of_nat (snd (regime hour)).
Proof.
  intros H. unfold customers_in_hours, regime, in_pattern, morning_rush,
    midday_slowdown, afternoon_recovery. cbn [fst snd].
  repeat match goal with
         | |- context [?a <=? ?b] => destruct (Z.leb_spec a b)
         | |- context [?a <? ?b] => destruct (Z.ltb_spec a b)
         end; cbn [andb snd]; lia.
Qed.

Lemma intervals_snoc (l : list datetime) (a b : datetime) :
  intervals (l ++ [a; b]) = intervals (l ++ [a]) ++ [interval_minutes a b].
Proof.
  induction l as [|x l IH]; [reflexivity|].
  destruct l as [|y l]; [reflexivity|].
  cbn [app intervals] in *. now rewrite IH.
Qed.

Lemma ids_from_one_snoc (n : nat) :
  ids_from_one (S n) = ids_from_one n ++ [1 + Z.of_nat n].
Proof.
  unfold ids_from_one. rewrite seq_S, map_app. cbn [map]. do 2 f_equal. lia.
Qed.

Section GeneratorRuns.
Variable timedelta_minutes : float -> Z.
Variable complexity_draw : Z -> float.
Variable interruption_draw : Z -> float.

Lemma serve_customer_run (old_events : list CompletionEvent)
    (old_waits : list float) (mult : float) (g : GenState) :
  run_invariant old_events old_waits g ->
  run_invariant old_events old_waits
    (serve_customer timedelta_minutes complexity_draw interruption_draw mult g).
Proof.
  intros (new_events & He & Hid & Hids & Hw). unfold serve_customer.
  set (e := mkEvent _ _ _).
  exists (new_events ++ [e]).
  cbn [simulator service_completions next_customer_id actual_wait_times].
  split; [now rewrite He, app_assoc|].
  split; [rewrite length_app; cbn [length]; lia|].
  split.
  { rewrite map_app, length_app, Hids. cbn [map length].
    rewrite Nat.add_1_r, ids_from_one_snoc. subst e. cbn [customer_id].
    now rewrite Hid. }
  destruct (1 <? next_customer_id g) eqn:Hfirst.
  - apply Z.ltb_lt in Hfirst.
    destruct (exists_last (l := new_events)) as (earlier & prev & Hsplit).
    { intros Hnil. rewrite Hnil in Hid. cbn in Hid. lia. }
    rewrite He, Hsplit. rewrite <- !app_assoc. cbn [app].
    rewrite (app_assoc old_events earlier), second_to_last_snoc.
    rewrite Hw, Hsplit, !map_app. cbn [map].
    rewrite <- app_assoc. cbn [app]. rewrite intervals_snoc.
    reflexivity.
  - apply Z.ltb_ge in Hfirst.
    assert (Hnil : new_events = []) by (apply length_zero_iff_nil; lia).
    rewrite Hw, Hnil. reflexivity.
Qed.

Lemma serve_customers_run (old_events : list CompletionEvent)
    (old_waits : list float) (n : nat) (mult : float) :
  forall g,
    run_invariant old_events old_waits g ->
    run_invariant old_events old_waits
      (serve_customers timedelta_minutes complexity_draw interruption_draw n
         mult g).
Proof.
  induction n as [|n IH]; intros g Hg; [exact Hg|].
  cbn [serve_customers]. apply IH. now apply serve_customer_run.
Qed.

Lemma simulate_hours_run (old_events : list CompletionEvent)
    (old_waits : list float) (n : nat) :
  forall hour g,
    run_invariant old_events old_waits g ->
    run_invariant old_events old_waits
      (simulate_hours timedelta_minutes complexity_draw interruption_draw n
         hour g).
Proof.
  induction n as [|n IH]; intros hour g Hg; [exact Hg|].
  cbn [simulate_hours]. apply IH.
  unfold simulate_hour. destruct (regime hour) as [mult cph].
  now apply serve_customers_run.
Qed.

Lemma serve_customers_counts (n : nat) (mult : float) :
  forall g,
    let g' := serve_customers timedelta_minutes complexity_draw
                interruption_draw n mult g in
    next_customer_id g' = next_customer_id g + Z.of_nat n
    /\ hours (simulator g') = hours (simulator g)
    /\ base_service_time (simulator g') = base_service_time (simulator g).
Proof.
  induction n as [|n IH]; intros g; cbn zeta.
  - cbn [serve_customers]. repeat split. lia.
  - cbn [serve_customers].
    destruct (IH (serve_customer timedelta_minutes complexity_draw
                    interruption_draw mult g)) as (H1 & H2 & H3).
    rewrite H1, H2, H3. unfold serve_customer.
    cbn [next_customer_id simulator hours base_service_time].
    repeat split. lia.
Qed.

Lemma simulate_hours_counts (n : nat) :
  forall hour g,
    0 <= hour ->
    let g' := simulate_hours timedelta_minutes complexity_draw
                interruption_draw n hour g in
    next_customer_id g'
    = next_customer_id g + customers_in_hours (hour + Z.of_nat n)
      - customers_in_hours hour
    /\ hours (simulator g') = hours (simulator g)
    /\ base_service_time (simulator g') = base_service_time (simulator g).
Proof.
  induction n as [|n IH]; intros hour g Hhour; cbn zeta.
  - cbn [simulate_hours]. rewrite Z.add_0_r. repeat split. lia.
  - cbn [simulate_hours].
    destruct (IH (hour + 1)
                (simulate_hour timedelta_minutes complexity_draw
                   interruption_draw hour g) ltac:(lia)) as (H1 & H2 & H3).
    rewrite H1, H2, H3. unfold simulate_hour.
    pose proof (customers_in_hours_step hour Hhour) as Hstep.
    destruct (regime hour) as [mult cph]. cbn [snd] in Hstep.
    destruct (serve_customers_counts cph mult g) as (K1 & K2 & K3).
    rewrite K1, K2, K3.
    replace (hour + 1 + Z.of_nat n) with (hour + Z.of_nat (S n)) by lia.
    repeat split. lia.
Qed.

(** Everything a run does to a simulator, in one statement. *)
Lemma generate_synthetic_data_run (start : datetime) (self : QueueSimulator) :
  let result :=
    generate_synthetic_data timedelta_minutes complexity_draw
      interruption_draw start self in
  exists new_events,
    fst result = service_completions self ++ new_events
    /\ service_completions (snd result) = fst result
    /\ Z.of_nat (length new_events) = customers_in_hours (hours self)
    /\ map customer_id new_events = ids_from_one (length new_events)
    /\ actual_wait_times (snd result)
       = actual_wait_times self ++ intervals (map timestamp new_events)
    /\ hours (snd result) = hours self
    /\ base_service_time (snd result) = base_service_time self.
Proof.
  cbn zeta. unfold generate_synthetic_data. cbn [fst snd].
  set (g0 := mkGen start 1 self).
  assert (H0 : run_invariant (service_completions self)
                 (actual_wait_times self) g0).
  { exists []. cbn. now rewrite !app_nil_r. }
  pose proof (simulate_hours_run _ _ (Z.to_nat (hours self)) 0 g0 H0)
    as (new_events & He & Hid & Hids & Hw).
  destruct (simulate_hours_counts (Z.to_nat (hours self)) 0 g0 ltac:(lia))
    as (Hc & Hh & Hb).
  set (g := simulate_hours _ _ _ _ _ _) in *.
  exists new_events. split; [exact He|]. split; [reflexivity|].
  split.
  { subst g0. cbn [next_customer_id] in Hc.
    assert (Hcount : customers_in_hours (0 + Z.of_nat (Z.to_nat (hours self)))
                     = customers_in_hours (hours self)).
    { destruct (Z.le_gt_cases 0 (hours self)) as [Hpos|Hneg].
      - now rewrite Z2Nat.id by assumption.
      - replace (Z.to_nat (hours self)) with 0%nat by lia.
        unfold customers_in_hours.
        replace (hours self <=? 0) with true
          by (symmetry; apply Z.leb_le; lia). reflexivity. }
    rewrite Hcount in Hc. change (customers_in_hours 0) with 0 in Hc. lia. }
  split; [exact Hids|]. split; [exact Hw|].
  split; [exact Hh | exact Hb].
Qed.

End GeneratorRuns.

(** ** Runs that return

    A run with the exceptions of line 78 that returns has done what the loop
    without them does with the conversions that returned. *)

Section CheckedRuns.

Variable timedelta : float -> option Z.
Variable complexity_draw : Z -> float.
Variable interruption_draw : Z -> float.

Lemma serve_customer_checked_returns (mult : float) (g g' : GenState) :
  serve_customer_checked timedelta complexity_draw interruption_draw mult g
  = Some g' ->
  g' = serve_customer (returned_delta timedelta) complexity_draw
         interruption_draw mult g
  /\ valid_datetime (current_time g') = true.
Proof.
  unfold serve_customer_checked, serve_customer, returned_delta.
  destruct (timedelta _) as [delta|]; [|discriminate].
  destruct (valid_datetime (current_time g + delta)) eqn:Hvalid;
    [|discriminate].
  intros H. injection H as <-. split; [reflexivity | exact Hvalid].
Qed.

Lemma serve_customers_checked_returns (n : nat) (mult : float) :
  forall g g',
    serve_customers_checked timedelta complexity_draw interruption_draw n
      mult g = Some g' ->
    g' = serve_customers (returned_delta timedelta) complexity_draw
           interruption_draw n mult g.
Proof.
  induction n as [|n IH]; intros g g' H; cbn [serve_customers_checked] in H.
  - injection H as <-. reflexivity.
  - destruct (serve_customer_checked _ _ _ mult g) as [g1|] eqn:H1;
      [|discriminate].
    apply serve_customer_checked_returns in H1. destruct H1 as [-> _].
    cbn [serve_customers]. now apply IH.
Qed.

Lemma simulate_hours_checked_returns (n : nat) :
  forall hour g g',
    simulate_hours_checked timedelta complexity_draw interruption_draw n
      hour g = Some g' ->
    g' = simulate_hours (returned_delta timedelta) complexity_draw
           interruption_draw n hour g.
Proof.
  induction n as [|n IH]; intros hour g g' H;
    cbn [simulate_hours_checked] in H.
  - injection H as <-. reflexivity.
  - destruct (simulate_hour_checked _ _ _ hour g) as [g1|] eqn:H1;
      [|discriminate].
    unfold simulate_hour_checked in H1. cbn [simulate_hours].
    unfold simulate_hour. destruct (regime hour) as [mult cph].
    apply serve_customers_checked_returns in H1. subst g1. now apply IH.
Qed.

Lemma generate_synthetic_data_checked_returns (start : datetime)
    (self : QueueSimulator)
    (result : list CompletionEvent * QueueSimulator) :
  generate_synthetic_data_checked timedelta complexity_draw interruption_draw
    start self = Some result ->
  result = generate_synthetic_data (returned_delta timedelta) complexity_draw
             interruption_draw start self.
Proof.
  unfold generate_synthetic_data_checked, generate_synthetic_data.
  destruct (simulate_hours_checked _ _ _ _ _ _) as [g|] eqn:Hg;
    [|discriminate].
  apply simulate_hours_checked_returns in Hg. subst g.
  intros H. injection H as <-. reflexivity.
Qed.

End CheckedRuns.

(** A base service time that carries the clock past the year 9999, or one
    that is not a number, makes the first step raise. *)
Lemma distant_dates_raise :
  generate_synthetic_data_checked TimedeltaRef.checked_minutes
    unit_complexity no_interruption 0 (new_simulator 1 1e10) = None
  /\ generate_synthetic_data_checked TimedeltaRef.checked_minutes
       unit_complexity no_interruption 0 (new_simulator 1 nan) = None.
Proof. vm_compute. split; reflexivity. Qed.

(** X14.  A run of [generate_synthetic_data] that returns, on any
    simulator, new or used, with any draws: the events stored before stay
    in place and the run adds after them exactly 15 events for each of the
    first two hours, 8 for each hour until hour five, 12 until hour seven
    and 14 for every later hour (none for a horizon of 0 or less), numbered
    1, 2, 3, ... by the run; the data frame returned holds all stored
    events, earlier runs included; [hours] and [base_service_time] are not
    written.  (A run raises when a service time is more than [timedelta]
    converts or the clock leaves the dates a [datetime] holds.) *)
Theorem generate_synthetic_data_appends :
  forall timedelta complexity_draw interruption_draw start_time self result,
    generate_synthetic_data_checked timedelta complexity_draw
      interruption_draw start_time self = Some result ->
    exists new_events,
      fst result = service_completions self ++ new_events
      /\ service_completions (snd result) = fst result
      /\ Z.of_nat (length new_events) = customers_in_hours (hours self)
      /\ map customer_id new_events = ids_from_one (length new_events)
      /\ hours (snd result) = hours self
      /\ base_service_time (snd result) = base_service_time self.
Proof.
  intros td cd idr start self result Hrun.
  apply generate_synthetic_data_checked_returns in Hrun. subst result.
  destruct (generate_synthetic_data_run (returned_delta td) cd idr start self)
    as (new_events & H1 & H2 & H3 & H4 & _ & H6 & H7).
  exists new_events. repeat (split; [assumption|]). assumption.
Qed.

Lemma generate_synthetic_data_appends_witness :
  generate_synthetic_data_checked TimedeltaRef.checked_minutes
    unit_complexity no_interruption 3600000000 used_simulator
  = Some second_run
  /\ exists new_events,
       fst second_run = service_completions used_simulator ++ new_events
       /\ service_completions (snd second_run) = fst second_run
       /\ Z.of_nat (length new_events)
          = customers_in_hours (hours used_simulator)
       /\ map customer_id new_events = ids_from_one (length new_events)
       /\ hours (snd second_run) = hours used_simulator
       /\ base_service_time (snd second_run)
          = base_service_time used_simulator.
Proof.
  assert (Hrun : generate_synthetic_data_checked TimedeltaRef.checked_minutes
                   unit_complexity no_interruption 3600000000 used_simulator
                 = Some second_run) by (vm_compute; reflexivity).
  split; [exact Hrun|].
  exact (generate_synthetic_data_appends TimedeltaRef.checked_minutes
           unit_complexity no_interruption 3600000000 used_simulator
           second_run Hrun).
Defined.

(** X15.  The wait times a run that returns has recorded: the waits stored
    before stay in place, and the run adds after them, for each event it
    added but its first, the [.seconds / 60] reading of the gap to the event
    before it: one fewer than the events added (the first event of a run
    has no wait, also on a used simulator), each at least zero whatever the
    draws and the base service time. *)
Theorem generate_synthetic_data_wait_times :
  forall timedelta complexity_draw interruption_draw start_time self result,
    generate_synthetic_data_checked timedelta complexity_draw
      interruption_draw start_time self = Some result ->
    let new_events := skipn (length (service_completions self)) (fst result) in
    let new_waits := intervals (map timestamp new_events) in
    actual_wait_times (snd result) = actual_wait_times self ++ new_waits
    /\ Z.of_nat (length new_waits)
       = Z.max 0 (customers_in_hours (hours self) - 1)
    /\ Forall at_least_zero new_waits.
Proof.
  intros td cd idr start self result Hrun new_events new_waits.
  apply generate_synthetic_data_checked_returns in Hrun.
  destruct (generate_synthetic_data_run (returned_delta td) cd idr start self)
    as (added & H1 & _ & H3 & _ & H5 & _).
  rewrite <- Hrun in H1, H5.
  assert (Hnew : new_events = added).
  { subst new_events. rewrite H1, skipn_app, skipn_all, Nat.sub_diag.
    reflexivity. }
  subst new_waits. rewrite Hnew. split; [exact H5|]. split.
  - rewrite length_intervals, length_map. lia.
  - apply intervals_all_at_least_zero.
Qed.

Lemma generate_synthetic_data_wait_times_witness :
  generate_synthetic_data_checked TimedeltaRef.checked_minutes
    unit_complexity no_interruption 3600000000 used_simulator
  = Some second_run
  /\ actual_wait_times (snd second_run)
     = actual_wait_times used_simulator
       ++ intervals
            (map timestamp
               (skipn (length (service_completions used_simulator))
                  (fst second_run)))
  /\ length (actual_wait_times (snd second_run)) = 28%nat.
Proof.
  assert (Hrun : generate_synthetic_data_checked TimedeltaRef.checked_minutes
                   unit_complexity no_interruption 3600000000 used_simulator
                 = Some second_run) by (vm_compute; reflexivity).
  split; [exact Hrun|].
  split; [|vm_compute; reflexivity].
  exact (proj1 (generate_synthetic_data_wait_times
                  TimedeltaRef.checked_minutes unit_complexity no_interruption
                  3600000000 used_simulator second_run Hrun)).
Defined.

(** ** The demonstration *)


